(** * schematizer: the SQL intermediate representation and the Avro schema record

    A shallow embedding of [schematizer/models/sql_entities.py] and of
    [AvroSchema.to_dict] from [schematizer/models/avro_schema.py], with the
    properties their specification states about them.

    The program is Python 2 (it imports [itertools.izip]); the first module
    below fixes the few pieces of the Python runtime the two files lean on:
    the primitive values with their [==], truthiness and [<], [str.lower],
    exceptions, [izip], [sorted] and the hashing of tuples. *)

From Stdlib Require Import ZArith Ascii String List Bool Lia Permutation Sorted.
From stdpp Require Import base strings gmap list sorting.

Set Warnings "-clear-no-such-hyp".

Local Open Scope Z_scope.
Local Open Scope string_scope.

(** ** The Python runtime the source relies on *)

Module Py.

(** Primitive Python values: [None], [bool], [int]/[long] and [str].
    Floating-point values are left out; their NaN is the one primitive value
    that is not equal to itself. *)
Inductive PyVal : Type :=
  | VNone
  | VBool (b : bool)
  | VInt (n : Z)
  | VStr (s : string).

#[global] Instance PyVal_eq_dec : EqDecision PyVal.
Proof. solve_decision. Defined.

(** [bool] is a subclass of [int]: [True == 1] and [False == 0]. *)
Definition as_number (v : PyVal) : option Z :=
  match v with
  | VBool b => Some (Z.b2z b)
  | VInt n => Some n
  | VNone | VStr _ => None
  end.

(** [a == b] on primitive values. *)
Definition py_eq (a b : PyVal) : bool :=
  match a, b with
  | VNone, VNone => true
  | VStr s, VStr t => String.eqb s t
  | _, _ =>
      match as_number a, as_number b with
      | Some x, Some y => Z.eqb x y
      | _, _ => false
      end
  end.

(** [bool(v)]: what [if v] tests. *)
Definition truthy (v : PyVal) : bool :=
  match v with
  | VNone => false
  | VBool b => b
  | VInt n => negb (Z.eqb n 0)
  | VStr s => negb (String.eqb s "")
  end.

(** [x is not None] *)
Definition is_not_None (v : PyVal) : bool :=
  match v with
  | VNone => false
  | _ => true
  end.

(** [a < b] in Python 2: [None] is below everything, numbers compare by
    value and sit below strings, strings compare byte by byte. *)
Definition py_lt (a b : PyVal) : bool :=
  match a, b with
  | _, VNone => false
  | VNone, _ => true
  | VStr s, VStr t => String.ltb s t
  | VStr _, _ => false
  | _, VStr _ => true
  | _, _ =>
      match as_number a, as_number b with
      | Some x, Some y => Z.ltb x y
      | _, _ => false
      end
  end.

(** [str.lower()] (C locale): only the letters A to Z change. *)
Definition lower_char (c : ascii) : ascii :=
  let n := nat_of_ascii c in
  if (Nat.leb 65 n && Nat.leb n 90)%bool then ascii_of_nat (n + 32) else c.

Fixpoint lower (s : string) : string :=
  match s with
  | EmptyString => EmptyString
  | String c rest => String (lower_char c) (lower rest)
  end.

(** Exceptions.  A bare [assert] raises an [AssertionError] without a
    message; what tells one failure from another is the source line the
    traceback ends at, kept here as [lineno]. *)
Inductive exn : Type :=
  | AssertionError (lineno : nat)
  | NotImplementedError (msg : string)
  | ValueError (msg : string).

Inductive result (A : Type) : Type :=
  | Ok (a : A)
  | Raise (e : exn).
Arguments Ok {A} a.
Arguments Raise {A} e.

#[global] Instance result_ret : MRet result := fun A a => Ok a.
#[global] Instance result_bind : MBind result := fun A B k m =>
  match m with
  | Ok a => k a
  | Raise e => Raise e
  end.

(** [assert cond] written at source line [lineno]. *)
Definition assert_ (lineno : nat) (cond : bool) : result unit :=
  if cond then Ok tt else Raise (AssertionError lineno).

(** [for x, y in izip(xs, ys): body(x, y)]: stops with the shorter sequence,
    and at the first exception. *)
Fixpoint for_izip {A B : Type} (body : A -> B -> result unit)
    (xs : list A) (ys : list B) : result unit :=
  match xs, ys with
  | x :: xs', y :: ys' => body x y ;; for_izip body xs' ys'
  | _, _ => Ok tt
  end.

(** [sorted(xs, key=key)]: a stable sort that compares keys with [<] only. *)
Section SortedBuiltin.
Context {A : Type} (key : A -> PyVal).

Fixpoint insert_by_key (x : A) (l : list A) : list A :=
  match l with
  | [] => [x]
  | y :: l' =>
      if py_lt (key y) (key x) then y :: insert_by_key x l'
      else x :: y :: l'
  end.

Fixpoint sorted (l : list A) : list A :=
  match l with
  | [] => []
  | x :: l' => insert_by_key x (sorted l')
  end.
End SortedBuiltin.

(** [list.__eq__]: same length and equal members position by position. *)
Fixpoint list_eq {A B : Type} (eq : A -> B -> bool)
    (xs : list A) (ys : list B) : bool :=
  match xs, ys with
  | [], [] => true
  | x :: xs', y :: ys' => eq x y && list_eq eq xs' ys'
  | _, _ => false
  end.

(** A [set] is kept as the list of its members in the order the set iterates
    them.  [x in s] and [s1 == s2] go through the members' [==]. *)
Section Sets.
Context {A : Type} (eq : A -> A -> bool).

Definition set_contains (s : list A) (x : A) : bool :=
  existsb (eq x) s.

Definition set_eq (s1 s2 : list A) : bool :=
  Nat.eqb (length s1) (length s2) && forallb (set_contains s2) s1.
End Sets.

(** Building a set from a sequence. *)
Section SetBuild.
Context {A : Type} (eq : A -> A -> bool).

(** [s.add(x)]: nothing changes when a member equal to [x] is there. *)
Definition set_add (s : list A) (x : A) : list A :=
  if set_contains eq s x then s else s ++ [x].

(** The members [set(xs)] ends up with, in the order they were first added. *)
Definition set_members (xs : list A) : list A := fold_left set_add xs [].
End SetBuild.

(** The order in which a set iterates its members is the hash table's: some
    arrangement of the members, fixed by the runtime. *)
Class SetOrder (A : Type) : Type := {
  iteration_order : list A -> list A;
  iteration_order_perm : forall members : list A,
    iteration_order members ≡ₚ members
}.

(** [set(xs)], as the list of its members in iteration order. *)
Definition set_of_list {A : Type} `{SetOrder A} (eq : A -> A -> bool)
    (xs : list A) : list A :=
  iteration_order (set_members eq xs).

(** [xs or []] for an argument that is a list or [None]. *)
Definition or_empty {A : Type} (xs : option (list A)) : list A :=
  match xs with
  | Some l => l
  | None => []
  end.

(** [dict.__eq__] on keyword dictionaries: same number of keys, and every key
    of the first is a key of the second with an equal value. *)
Definition dict_eq (d1 d2 : gmap string PyVal) : bool :=
  Nat.eqb (size d1) (size d2) &&
  forallb (fun kv : string * PyVal =>
             match d2 !! kv.1 with
             | Some v => py_eq kv.2 v
             | None => false
             end) (map_to_list d1).

(** The builtin [hash] is the runtime's: how it hashes [None], an integer, a
    string, and how it combines the hashes of a tuple's members. *)
Class Hashing : Type := {
  hash_none : Z;
  hash_int : Z -> Z;
  hash_str : string -> Z;
  hash_tuple : list Z -> Z
}.

(** [hash(v)]; [bool] inherits the hash of [int]. *)
Definition py_hash `{Hashing} (v : PyVal) : Z :=
  match v with
  | VNone => hash_none
  | VBool b => hash_int (Z.b2z b)
  | VInt n => hash_int n
  | VStr s => hash_str s
  end.

End Py.
Import Py.

(** ** The data model of [sql_entities.py] *)

(** [SQLAttribute]: a named setting, with or without a value. *)
Record SQLAttribute : Type := {
  attr_name : string;
  attr_value : PyVal;
  attr_has_value : bool
}.

(** A class in the [SQLColumnDataType] hierarchy: the base class or one of the
    concrete column types deriving from it.  A subclass sets [type_name] and
    supplies [_string_to_value], which is handed the instance's attributes
    and [val_string] (a string or [None]); [__eq__], [to_value] and
    [_is_null_string] are the base class's. *)
Record DataTypeClass : Type := {
  class_name : string;
  type_name : option string;
  _string_to_value : list SQLAttribute -> option string -> result PyVal
}.

(** An instance of a class of that hierarchy; [dt_attributes] is the set
    [self.attributes]. *)
Record SQLColumnDataType : Type := {
  dt_class : DataTypeClass;
  dt_attributes : list SQLAttribute
}.

Record SQLColumn : Type := {
  col_name : string;
  col_type : SQLColumnDataType;
  col_primary_key_order : PyVal;
  col_is_nullable : bool;
  col_default_value : PyVal;
  col_doc : option string;
  col_attributes : list SQLAttribute;
  col_metadata : gmap string PyVal
}.

Record SQLTable : Type := {
  tbl_name : string;
  tbl_columns : list SQLColumn;
  tbl_doc : option string;
  tbl_metadata : gmap string PyVal
}.

(** What the [other] of [__eq__] and [assert_equal] can be: any object.
    [isinstance(other, C)] is the match on the constructor. *)
Inductive PyObj : Type :=
  | OVal (v : PyVal)
  | OAttribute (a : SQLAttribute)
  | ODataType (d : SQLColumnDataType)
  | OColumn (c : SQLColumn)
  | OTable (t : SQLTable).

(** ** The methods *)

Module SQLAttribute.

(** [SQLAttribute(name)] *)
Definition __init__ (name : string) : SQLAttribute :=
  {| attr_name := name; attr_value := VNone; attr_has_value := false |}.

Definition create_with_value (name : string) (value : PyVal) : SQLAttribute :=
  {| attr_name := name; attr_value := value; attr_has_value := true |}.

Definition __eq__ (self : SQLAttribute) (other : PyObj) : bool :=
  match other with
  | OAttribute other =>
      String.eqb (attr_name self) (attr_name other) &&
      py_eq (attr_value self) (attr_value other) &&
      Bool.eqb (attr_has_value self) (attr_has_value other)
  | _ => false
  end.

(** [hash((self.name, self.value, self.has_value))] *)
Definition __hash__ `{Hashing} (self : SQLAttribute) : Z :=
  hash_tuple [hash_str (attr_name self);
              py_hash (attr_value self);
              py_hash (VBool (attr_has_value self))].

Definition assert_equal (self : SQLAttribute) (other : PyObj) : result unit :=
  match other with
  | OAttribute other =>
      assert_ 125 (String.eqb (attr_name self) (attr_name other)) ;;
      assert_ 126 (py_eq (attr_value self) (attr_value other)) ;;
      assert_ 127 (Bool.eqb (attr_has_value self) (attr_has_value other))
  | _ => Raise (AssertionError 124)
  end.

End SQLAttribute.

(** [s1 == s2] for two sets of attributes. *)
Definition attrs_eq : list SQLAttribute -> list SQLAttribute -> bool :=
  set_eq (fun a b => SQLAttribute.__eq__ a (OAttribute b)).

(** [set(attributes or [])] *)
Definition attribute_set `{SetOrder SQLAttribute}
    (attributes : option (list SQLAttribute)) : list SQLAttribute :=
  set_of_list (fun a b => SQLAttribute.__eq__ a (OAttribute b))
    (or_empty attributes).

(** [dict((attr.name, attr) for attr in attributes)]: the set is walked in
    its iteration order, and a later attribute replaces an earlier one of the
    same name. *)
Definition attributes_lookup (attributes : list SQLAttribute)
    : gmap string SQLAttribute :=
  fold_left (fun d attr => <[attr_name attr := attr]> d) attributes ∅.

Module SQLColumnDataType.

(** The base class itself: [type_name = None], and a [_string_to_value]
    that only raises. *)
Definition base : DataTypeClass :=
  {| class_name := "SQLColumnDataType";
     type_name := None;
     _string_to_value := fun _ _ =>
       Raise (NotImplementedError "Must be implemented by subclasses") |}.

Definition __eq__ (self : SQLColumnDataType) (other : PyObj) : bool :=
  match other with
  | ODataType other => attrs_eq (dt_attributes self) (dt_attributes other)
  | _ => false
  end.

(** [val_string] is a string or [None]. *)
Definition _is_null_string (self : SQLColumnDataType)
    (val_string : option string) : bool :=
  match val_string with
  | None => true
  | Some s => String.eqb (lower s) "null"
  end.

Definition to_value (self : SQLColumnDataType)
    (val_string : option string) : result PyVal :=
  if _is_null_string self val_string then Ok VNone
  else _string_to_value (dt_class self) (dt_attributes self) val_string.

(** [cls(attributes)], for the base class and for every class that keeps
    its [__init__]. *)
Definition __init__ `{SetOrder SQLAttribute} (cls : DataTypeClass)
    (attributes : option (list SQLAttribute)) : SQLColumnDataType :=
  {| dt_class := cls; dt_attributes := attribute_set attributes |}.

(** The field [_attributes_lookup]: [__init__] computes it from
    [self.attributes], and no method assigns either of the two again. *)
Definition _attributes_lookup (self : SQLColumnDataType)
    : gmap string SQLAttribute :=
  attributes_lookup (dt_attributes self).

Definition attribute_exists (self : SQLColumnDataType) (name : string) : bool :=
  match _attributes_lookup self !! name with
  | Some _ => true
  | None => false
  end.

(** [dict.get]: [None] when the name is not a key. *)
Definition get_attribute (self : SQLColumnDataType) (name : string)
    : option SQLAttribute :=
  _attributes_lookup self !! name.

End SQLColumnDataType.

Module SQLColumn.

Definition __eq__ (self : SQLColumn) (other : PyObj) : bool :=
  match other with
  | OColumn other =>
      String.eqb (col_name self) (col_name other) &&
      SQLColumnDataType.__eq__ (col_type self) (ODataType (col_type other)) &&
      py_eq (col_primary_key_order self) (col_primary_key_order other) &&
      Bool.eqb (col_is_nullable self) (col_is_nullable other) &&
      py_eq (col_default_value self) (col_default_value other) &&
      attrs_eq (col_attributes self) (col_attributes other) &&
      dict_eq (col_metadata self) (col_metadata other)
  | _ => false
  end.

Definition assert_equal (self : SQLColumn) (other : PyObj) : result unit :=
  match other with
  | OColumn other =>
      assert_ 83 (String.eqb (col_name self) (col_name other)) ;;
      assert_ 84 (SQLColumnDataType.__eq__ (col_type self)
                    (ODataType (col_type other))) ;;
      assert_ 85 (py_eq (col_primary_key_order self)
                    (col_primary_key_order other)) ;;
      assert_ 86 (Bool.eqb (col_is_nullable self) (col_is_nullable other)) ;;
      assert_ 87 (py_eq (col_default_value self) (col_default_value other)) ;;
      for_izip (fun my_attribute other_attribute =>
                  SQLAttribute.assert_equal my_attribute
                    (OAttribute other_attribute))
        (col_attributes self) (col_attributes other) ;;
      assert_ 93 (dict_eq (col_metadata self) (col_metadata other))
  | _ => Raise (AssertionError 82)
  end.

(** [SQLColumn(column_name, column_type, primary_key_order, is_nullable,
    default_value, attributes, doc, **metadata)]; the defaults of the
    optional arguments are [None], [True], [None], [None], [None]. *)
Definition __init__ `{SetOrder SQLAttribute} (column_name : string)
    (column_type : SQLColumnDataType) (primary_key_order : PyVal)
    (is_nullable : bool) (default_value : PyVal)
    (attributes : option (list SQLAttribute)) (doc : option string)
    (metadata : gmap string PyVal) : SQLColumn :=
  {| col_name := column_name; col_type := column_type;
     col_primary_key_order := primary_key_order;
     col_is_nullable := is_nullable;
     col_default_value := default_value;
     col_doc := doc;
     col_attributes := attribute_set attributes;
     col_metadata := metadata |}.

(** The field [_attributes_lookup], computed once from [self.attributes]. *)
Definition _attributes_lookup (self : SQLColumn) : gmap string SQLAttribute :=
  attributes_lookup (col_attributes self).

Definition get_attribute (self : SQLColumn) (key : string)
    : option SQLAttribute :=
  _attributes_lookup self !! key.

End SQLColumn.

Module SQLTable.

Definition __eq__ (self : SQLTable) (other : PyObj) : bool :=
  match other with
  | OTable other =>
      String.eqb (tbl_name self) (tbl_name other) &&
      list_eq (fun c1 c2 => SQLColumn.__eq__ c1 (OColumn c2))
        (tbl_columns self) (tbl_columns other) &&
      dict_eq (tbl_metadata self) (tbl_metadata other)
  | _ => false
  end.

Definition assert_equal (self : SQLTable) (other : PyObj) : result unit :=
  match other with
  | OTable other =>
      assert_ 32 (String.eqb (tbl_name self) (tbl_name other)) ;;
      for_izip (fun my_column other_column =>
                  SQLColumn.assert_equal my_column (OColumn other_column))
        (tbl_columns self) (tbl_columns other) ;;
      assert_ 35 (dict_eq (tbl_metadata self) (tbl_metadata other))
  | _ => Raise (AssertionError 31)
  end.

(** The property [primary_keys]. *)
Definition primary_keys (self : SQLTable) : list SQLColumn :=
  sorted col_primary_key_order
    (List.filter (fun col => truthy (col_primary_key_order col))
       (tbl_columns self)).

(** [SQLTable(table_name, columns, doc, **metadata)] *)
Definition __init__ (table_name : string) (columns : option (list SQLColumn))
    (doc : option string) (metadata : gmap string PyVal) : SQLTable :=
  {| tbl_name := table_name; tbl_columns := or_empty columns;
     tbl_doc := doc; tbl_metadata := metadata |}.

Definition test (self : SQLTable) : result unit := assert_ 28 false.

End SQLTable.

Module MetaDataKey.
Definition NAMESPACE : string := "namespace".
Definition ALIASES : string := "aliases".
Definition PERMISSION : string := "permission".
End MetaDataKey.

Record DbPermission : Type := {
  object_name : PyVal;
  user_or_group_name : PyVal;
  permission : PyVal;
  for_group : bool
}.

(** Anything [DbPermission.__eq__] can be handed: a permission, or an object
    of another kind. *)
Inductive PermissionOrOther : Type :=
  | OPermission (p : DbPermission)
  | OOther (o : PyObj).

Module DbPermission.

Definition __init__ (object_name user_or_group_name permission : PyVal)
    (for_group : bool) : DbPermission :=
  {| object_name := object_name; user_or_group_name := user_or_group_name;
     permission := permission; for_group := for_group |}.

Definition __eq__ (self : DbPermission) (other : PermissionOrOther) : bool :=
  match other with
  | OPermission other =>
      py_eq (object_name self) (object_name other) &&
      py_eq (user_or_group_name self) (user_or_group_name other) &&
      py_eq (permission self) (permission other) &&
      Bool.eqb (for_group self) (for_group other)
  | OOther _ => false
  end.

End DbPermission.

(** ** The data model and serializer of [avro_schema.py] *)

Module Avro.

Module AvroSchemaStatus.
Definition READ_AND_WRITE : string := "RW".
Definition READ_ONLY : string := "R".
Definition DISABLED : string := "Disabled".
End AvroSchemaStatus.

Section AvroSchemaRecord.
(** The class [Topic] and its [to_dict] belong to another module of the
    package; [TopicDict] is whatever that [to_dict] returns. *)
Context {Topic TopicDict : Type}.
Variable topic_to_dict : Topic -> TopicDict.

(** One row of [avro_schema] with its [topic] relationship loaded; a
    column attribute holds a primitive value, [None] included. *)
Record AvroSchema : Type := {
  id : PyVal;
  avro_schema : PyVal;
  topic_id : PyVal;
  base_schema_id : PyVal;
  status : PyVal;
  created_at : PyVal;
  updated_at : PyVal;
  topic : option Topic
}.

(** A value stored in the dictionary [to_dict] builds. *)
Inductive DictValue : Type :=
  | DPrim (v : PyVal)
  | DTopic (d : TopicDict).

Definition to_dict (self : AvroSchema) : gmap string DictValue :=
  let avro_schema_dict : gmap string DictValue :=
    <["schema_id" := DPrim (id self)]>
    (<["schema" := DPrim (avro_schema self)]>
    (<["status" := DPrim (status self)]>
    (<["topic" := match topic self with
                  | None => DPrim VNone
                  | Some t => DTopic (topic_to_dict t)
                  end]>
    (<["created_at" := DPrim (created_at self)]>
    (<["updated_at" := DPrim (updated_at self)]> ∅))))) in
  if is_not_None (base_schema_id self)
  then <["base_schema_id" := DPrim (base_schema_id self)]> avro_schema_dict
  else avro_schema_dict.

End AvroSchemaRecord.
Arguments AvroSchema : clear implicits.
Arguments DictValue : clear implicits.

End Avro.

(** ** Sample values used by the examples *)

Module Samples.

(** Two stand-ins for concrete column types as a dialect module declares
    them: each sets [type_name] and supplies a conversion of its own. *)
Fixpoint digits (acc : Z) (s : string) : option Z :=
  match s with
  | EmptyString => Some acc
  | String c rest =>
      let n := nat_of_ascii c in
      if (Nat.leb 48 n && Nat.leb n 57)%bool
      then digits (10 * acc + Z.of_nat (n - 48)) rest
      else None
  end.

Definition IntegerType : DataTypeClass :=
  {| class_name := "IntegerType";
     type_name := Some "int";
     _string_to_value := fun _ val_string =>
       match val_string with
       | Some (String c rest as s) =>
           match digits 0 s with
           | Some n => Ok (VInt n)
           | None => Raise (ValueError "invalid literal for int()")
           end
       | Some EmptyString => Raise (ValueError "invalid literal for int()")
       | None => Ok VNone
       end |}.

Definition VarcharType : DataTypeClass :=
  {| class_name := "VarcharType";
     type_name := Some "varchar";
     _string_to_value := fun _ val_string =>
       match val_string with
       | Some s => Ok (VStr s)
       | None => Ok VNone
       end |}.

Definition unsigned : SQLAttribute := SQLAttribute.__init__ "unsigned".

Definition an_integer : SQLColumnDataType :=
  {| dt_class := IntegerType; dt_attributes := [unsigned] |}.
Definition a_varchar : SQLColumnDataType :=
  {| dt_class := VarcharType; dt_attributes := [unsigned] |}.

Definition column (name : string) (pk : PyVal) : SQLColumn :=
  {| col_name := name; col_type := an_integer;
     col_primary_key_order := pk; col_is_nullable := true;
     col_default_value := VNone; col_doc := None;
     col_attributes := []; col_metadata := ∅ |}.

Definition table (columns : list SQLColumn) : SQLTable :=
  {| tbl_name := "biz"; tbl_columns := columns; tbl_doc := None;
     tbl_metadata := {[ "namespace" := VStr "yelp" ]} |}.

(** Columns with the primary-key positions 2, none, 1, none, 3. *)
Definition five_columns : list SQLColumn :=
  [column "city" (VInt 2); column "phone" VNone; column "id" (VInt 1);
   column "url" VNone; column "zip" (VInt 3)].

(** A hashing in the manner of CPython 2.7 on a 64-bit machine: an integer
    hashes to itself (and -1 to -2), a tuple folds its members' hashes. *)
Definition wrap64 (x : Z) : Z := (x + 2^63) mod 2^64 - 2^63.

Fixpoint tuplehash (x mult : Z) (hs : list Z) : Z :=
  match hs with
  | [] => let r := wrap64 (x + 97531) in if Z.eqb r (-1) then -2 else r
  | y :: hs' =>
      tuplehash (wrap64 (Z.lxor x y * mult))
        (wrap64 (mult + 82520 + 2 * Z.of_nat (length hs'))) hs'
  end.

Fixpoint strhash (x : Z) (s : string) : Z :=
  match s with
  | EmptyString => x
  | String c rest =>
      strhash (wrap64 (Z.lxor (1000003 * x) (Z.of_nat (nat_of_ascii c)))) rest
  end.

#[local] Instance cpython_like : Hashing :=
  {| hash_none := 17;
     hash_int := fun n => if Z.eqb n (-1) then -2 else wrap64 n;
     hash_str := fun s => strhash 0 s;
     hash_tuple := tuplehash 3430008 1000003 |}.

(** Two iteration orders: the order of insertion, and its reverse. *)
#[local] Instance insertion_order : SetOrder SQLAttribute :=
  {| iteration_order := fun members => members;
     iteration_order_perm := fun members => Permutation_refl members |}.

Definition reverse_order : SetOrder SQLAttribute :=
  {| iteration_order := fun members => rev members;
     iteration_order_perm := fun members =>
       Permutation_sym (Permutation_rev members) |}.

Definition charset (value : string) : SQLAttribute :=
  SQLAttribute.create_with_value "char_set" (VStr value).

End Samples.

(** ** Vocabulary of the statements *)

(** [s] is the literal null up to the case of its four letters. *)
Definition null_ignoring_case (s : string) : Prop :=
  match s with
  | String c1 (String c2 (String c3 (String c4 EmptyString))) =>
      (c1 = "n" \/ c1 = "N")%char /\ (c2 = "u" \/ c2 = "U")%char /\
      (c3 = "l" \/ c3 = "L")%char /\ (c4 = "l" \/ c4 = "L")%char
  | _ => False
  end.

(** A [primary_key_order] as the parser assigns it: no value, or a positive
    integer. *)
Definition key_position (v : PyVal) : Prop :=
  v = VNone \/ exists n : Z, v = VInt n /\ 0 < n.

(** The sort key of [x] is an integer. *)
Definition int_key {A : Type} (key : A -> PyVal) (x : A) : Prop :=
  exists n : Z, key x = VInt n.

(** [x] sorts strictly before [y]: both keys are integers, in that order. *)
Definition int_key_lt {A : Type} (key : A -> PyVal) (x y : A) : Prop :=
  exists n m : Z, key x = VInt n /\ key y = VInt m /\ n < m.

(** [c1] comes strictly before [c2] in the primary key. *)
Definition key_before (c1 c2 : SQLColumn) : Prop :=
  int_key_lt col_primary_key_order c1 c2.

(** The columns of a table that carry a primary-key position. *)
Definition keyed_columns (t : SQLTable) : list SQLColumn :=
  List.filter (fun c => is_not_None (col_primary_key_order c))
    (tbl_columns t).

Definition with_col_doc (c : SQLColumn) (doc : option string) : SQLColumn :=
  {| col_name := col_name c; col_type := col_type c;
     col_primary_key_order := col_primary_key_order c;
     col_is_nullable := col_is_nullable c;
     col_default_value := col_default_value c;
     col_doc := doc;
     col_attributes := col_attributes c; col_metadata := col_metadata c |}.

Definition with_tbl_doc (t : SQLTable) (doc : option string) : SQLTable :=
  {| tbl_name := tbl_name t; tbl_columns := tbl_columns t;
     tbl_doc := doc; tbl_metadata := tbl_metadata t |}.

Definition with_columns (t : SQLTable) (columns : list SQLColumn) : SQLTable :=
  {| tbl_name := tbl_name t; tbl_columns := columns;
     tbl_doc := tbl_doc t; tbl_metadata := tbl_metadata t |}.

Definition with_attributes (c : SQLColumn) (attributes : list SQLAttribute)
    : SQLColumn :=
  {| col_name := col_name c; col_type := col_type c;
     col_primary_key_order := col_primary_key_order c;
     col_is_nullable := col_is_nullable c;
     col_default_value := col_default_value c;
     col_doc := col_doc c;
     col_attributes := attributes; col_metadata := col_metadata c |}.

Definition with_primary_key_order (c : SQLColumn) (pk : PyVal) : SQLColumn :=
  {| col_name := col_name c; col_type := col_type c;
     col_primary_key_order := pk;
     col_is_nullable := col_is_nullable c;
     col_default_value := col_default_value c;
     col_doc := col_doc c;
     col_attributes := col_attributes c; col_metadata := col_metadata c |}.

(** No two columns of the list are equal to one another. *)
Definition pairwise_distinct (columns : list SQLColumn) : Prop :=
  forall (i j : nat) (ci cj : SQLColumn),
    columns !! i = Some ci -> columns !! j = Some cj -> i <> j ->
    SQLColumn.__eq__ ci (OColumn cj) = false.

(** No two members of the list are equal to one another, as in a set. *)
Fixpoint attrs_distinct (s : list SQLAttribute) : bool :=
  match s with
  | [] => true
  | a :: s' =>
      negb (set_contains (fun a b => SQLAttribute.__eq__ a (OAttribute b)) s' a)
      && attrs_distinct s'
  end.

(** The two attribute sets of a column are sets. *)
Definition column_sets_ok (c : SQLColumn) : Prop :=
  attrs_distinct (dt_attributes (col_type c)) = true /\
  attrs_distinct (col_attributes c) = true.

(** The attribute of the given name that the set iterates last. *)
Definition last_named (name : string) (s : list SQLAttribute)
    : option SQLAttribute :=
  last (List.filter (fun a => String.eqb (attr_name a) name) s).

(** [c2] is not below [c1] in the order [sorted] uses. *)
Definition key_not_after (c1 c2 : SQLColumn) : Prop :=
  py_lt (col_primary_key_order c2) (col_primary_key_order c1) = false.

(** ** Facts about the runtime model *)

Section RuntimeFacts.

Lemma py_eq_refl (v : PyVal) : py_eq v v = true.
Proof.
  destruct v as [| b | n | s]; simpl; auto using Z.eqb_refl, String.eqb_refl.
Qed.

Lemma py_eq_sym (a b : PyVal) : py_eq a b = py_eq b a.
Proof.
  destruct a, b; simpl; auto using Z.eqb_sym, String.eqb_sym.
Qed.

(** Values that are [==] have the same hash, whatever the runtime's
    hashing of integers and strings is. *)
Lemma py_hash_eq `{Hashing} (a b : PyVal) :
  py_eq a b = true -> py_hash a = py_hash b.
Proof.
  destruct a, b; simpl; try discriminate; auto; intros E.
  all: try (apply Z.eqb_eq in E; congruence).
  apply String.eqb_eq in E. congruence.
Qed.

Lemma list_eq_Forall2 {A B : Type} (eq : A -> B -> bool) xs ys :
  list_eq eq xs ys = true <-> Forall2 (fun x y => eq x y = true) xs ys.
Proof.
  revert ys. induction xs as [| x xs IH]; intros [| y ys]; simpl.
  - split; auto.
  - split; [discriminate | inversion 1].
  - split; [discriminate | inversion 1].
  - rewrite andb_true_iff, IH. split.
    + intros [? ?]. by constructor.
    + inversion 1; subst. auto.
Qed.

Lemma list_eq_refl {A : Type} (eq : A -> A -> bool) xs :
  (forall x, eq x x = true) -> list_eq eq xs xs = true.
Proof.
  intros R. induction xs as [| x xs IH]; simpl; [done |].
  by rewrite R, IH.
Qed.

Lemma set_contains_In {A : Type} (eq : A -> A -> bool) s x :
  set_contains eq s x = true <-> exists y, In y s /\ eq x y = true.
Proof. unfold set_contains. apply existsb_exists. Qed.

Lemma set_eq_spec {A : Type} (eq : A -> A -> bool) s1 s2 :
  set_eq eq s1 s2 = true <->
  length s1 = length s2 /\
  forall x, In x s1 -> exists y, In y s2 /\ eq x y = true.
Proof.
  unfold set_eq.
  rewrite andb_true_iff, Nat.eqb_eq, forallb_forall.
  by setoid_rewrite set_contains_In.
Qed.

Lemma set_eq_refl {A : Type} (eq : A -> A -> bool) s :
  (forall x, eq x x = true) -> set_eq eq s s = true.
Proof.
  intros R. apply set_eq_spec. split; [done |]. intros x Hx. eauto.
Qed.

Lemma dict_eq_spec (d1 d2 : gmap string PyVal) :
  dict_eq d1 d2 = true <->
  size d1 = size d2 /\
  forall k v, d1 !! k = Some v ->
    exists v', d2 !! k = Some v' /\ py_eq v v' = true.
Proof.
  unfold dict_eq.
  rewrite andb_true_iff, Nat.eqb_eq, forallb_forall.
  split; intros [Hsz Hall]; (split; [done |]).
  - intros k v Hkv.
    specialize (Hall (k, v)). simpl in Hall.
    destruct (d2 !! k) as [v' |] eqn:E.
    + exists v'. split; [done |]. apply Hall.
      apply list_elem_of_In, elem_of_map_to_list. done.
    + exfalso. enough (false = true) by discriminate. apply Hall.
      apply list_elem_of_In, elem_of_map_to_list. done.
  - intros [k v] Hin. simpl.
    apply list_elem_of_In, elem_of_map_to_list in Hin.
    destruct (Hall k v Hin) as (v' & -> & ?). done.
Qed.

Lemma dict_eq_refl (d : gmap string PyVal) : dict_eq d d = true.
Proof.
  apply dict_eq_spec. split; [done |].
  intros k v Hkv. exists v. auto using py_eq_refl.
Qed.

End RuntimeFacts.

(** ** Equality of attributes, data types, columns and tables *)

Section EqualityFacts.

Lemma attribute_eq_fields (a b : SQLAttribute) :
  SQLAttribute.__eq__ a (OAttribute b) = true <->
  attr_name a = attr_name b /\
  py_eq (attr_value a) (attr_value b) = true /\
  attr_has_value a = attr_has_value b.
Proof.
  unfold SQLAttribute.__eq__.
  rewrite !andb_true_iff, String.eqb_eq, Bool.eqb_true_iff. tauto.
Qed.

Lemma attribute_eq_refl (a : SQLAttribute) :
  SQLAttribute.__eq__ a (OAttribute a) = true.
Proof. apply attribute_eq_fields. auto using py_eq_refl. Qed.

Lemma attrs_eq_refl (s : list SQLAttribute) : attrs_eq s s = true.
Proof. apply set_eq_refl, attribute_eq_refl. Qed.

Lemma data_type_eq_attrs (d1 d2 : SQLColumnDataType) :
  SQLColumnDataType.__eq__ d1 (ODataType d2) = true <->
  length (dt_attributes d1) = length (dt_attributes d2) /\
  forall a, In a (dt_attributes d1) ->
    exists b, In b (dt_attributes d2) /\
              SQLAttribute.__eq__ a (OAttribute b) = true.
Proof. apply set_eq_spec. Qed.

Lemma data_type_eq_refl (d : SQLColumnDataType) :
  SQLColumnDataType.__eq__ d (ODataType d) = true.
Proof. apply attrs_eq_refl. Qed.

Lemma column_eq_fields (c1 c2 : SQLColumn) :
  SQLColumn.__eq__ c1 (OColumn c2) = true <->
  col_name c1 = col_name c2 /\
  SQLColumnDataType.__eq__ (col_type c1) (ODataType (col_type c2)) = true /\
  py_eq (col_primary_key_order c1) (col_primary_key_order c2) = true /\
  col_is_nullable c1 = col_is_nullable c2 /\
  py_eq (col_default_value c1) (col_default_value c2) = true /\
  attrs_eq (col_attributes c1) (col_attributes c2) = true /\
  dict_eq (col_metadata c1) (col_metadata c2) = true.
Proof.
  unfold SQLColumn.__eq__.
  rewrite !andb_true_iff, String.eqb_eq, Bool.eqb_true_iff. tauto.
Qed.

Lemma column_eq_refl (c : SQLColumn) :
  SQLColumn.__eq__ c (OColumn c) = true.
Proof.
  apply column_eq_fields.
  auto 10 using py_eq_refl, attrs_eq_refl, dict_eq_refl, data_type_eq_refl.
Qed.

Lemma table_eq_fields (t1 t2 : SQLTable) :
  SQLTable.__eq__ t1 (OTable t2) = true <->
  tbl_name t1 = tbl_name t2 /\
  Forall2 (fun c1 c2 => SQLColumn.__eq__ c1 (OColumn c2) = true)
    (tbl_columns t1) (tbl_columns t2) /\
  dict_eq (tbl_metadata t1) (tbl_metadata t2) = true.
Proof.
  unfold SQLTable.__eq__.
  rewrite !andb_true_iff, String.eqb_eq, list_eq_Forall2. tauto.
Qed.

Lemma table_eq_refl (t : SQLTable) : SQLTable.__eq__ t (OTable t) = true.
Proof.
  apply table_eq_fields. repeat split; auto using dict_eq_refl.
  apply Forall2_same_length_lookup_2; [done |].
  intros i c c' E1 E2. rewrite E1 in E2. injection E2 as <-.
  apply column_eq_refl.
Qed.

End EqualityFacts.

(** C8: two attributes are equal exactly when their names, values and
    [has_value] flags are equal, and equal attributes have equal hashes,
    whichever way the runtime hashes integers, strings and tuples. *)
Theorem attribute_equality_and_hash `{Hashing} (a b : SQLAttribute) :
  (SQLAttribute.__eq__ a (OAttribute b) = true <->
     attr_name a = attr_name b /\
     py_eq (attr_value a) (attr_value b) = true /\
     attr_has_value a = attr_has_value b) /\
  (SQLAttribute.__eq__ a (OAttribute b) = true ->
     SQLAttribute.__hash__ a = SQLAttribute.__hash__ b).
Proof.
  split; [apply attribute_eq_fields |].
  intros E. apply attribute_eq_fields in E as (En & Ev & Eh).
  unfold SQLAttribute.__hash__.
  rewrite En, Eh, (py_hash_eq _ _ Ev). reflexivity.
Qed.

(** The attributes [("signed", 1, True)] and [("signed", True, True)] are
    equal, and hash alike under a CPython-like hashing. *)
Lemma attribute_equality_and_hash_witness :
  SQLAttribute.__eq__ (SQLAttribute.create_with_value "signed" (VInt 1))
    (OAttribute (SQLAttribute.create_with_value "signed" (VBool true))) = true /\
  @SQLAttribute.__hash__ Samples.cpython_like
    (SQLAttribute.create_with_value "signed" (VInt 1)) =
  @SQLAttribute.__hash__ Samples.cpython_like
    (SQLAttribute.create_with_value "signed" (VBool true)).
Proof.
  split; [reflexivity |].
  apply (proj2 (@attribute_equality_and_hash Samples.cpython_like
                  (SQLAttribute.create_with_value "signed" (VInt 1))
                  (SQLAttribute.create_with_value "signed" (VBool true)))).
  reflexivity.
Defined.

(** ** Conversion of raw strings *)

Section NullStrings.

Local Ltac by_cases_on_char c :=
  destruct c as [[] [] [] [] [] [] [] []]; vm_compute;
  split; intros E; try discriminate E; auto;
  destruct E as [E | E]; discriminate E.

Lemma lower_char_n c : lower_char c = "n"%char <-> (c = "n" \/ c = "N")%char.
Proof. by_cases_on_char c. Qed.

Lemma lower_char_u c : lower_char c = "u"%char <-> (c = "u" \/ c = "U")%char.
Proof. by_cases_on_char c. Qed.

Lemma lower_char_l c : lower_char c = "l"%char <-> (c = "l" \/ c = "L")%char.
Proof. by_cases_on_char c. Qed.

Lemma lower_is_null (s : string) :
  lower s = "null" <-> null_ignoring_case s.
Proof.
  destruct s as [| c1 [| c2 [| c3 [| c4 [| c5 s]]]]]; simpl;
    try (split; [discriminate | tauto]).
  rewrite <- lower_char_n, <- lower_char_u, <- !lower_char_l.
  split.
  - intros E. injection E. auto.
  - intros (-> & -> & -> & ->). reflexivity.
Qed.

Lemma is_null_string_spec (d : SQLColumnDataType) (val_string : option string) :
  SQLColumnDataType._is_null_string d val_string = true <->
  match val_string with
  | None => True
  | Some s => null_ignoring_case s
  end.
Proof.
  destruct val_string as [s |]; simpl; [| tauto].
  by rewrite String.eqb_eq, lower_is_null.
Qed.

End NullStrings.

(** C4: for every column data type, [to_value] gives [None] when the string
    is missing or is the literal null in any letter case, and otherwise gives
    what the type's own conversion gives for that string. *)
Theorem to_value_null_or_convert (d : SQLColumnDataType) :
  SQLColumnDataType.to_value d None = Ok VNone /\
  (forall s : string, null_ignoring_case s ->
     SQLColumnDataType.to_value d (Some s) = Ok VNone) /\
  (forall s : string, ~ null_ignoring_case s ->
     SQLColumnDataType.to_value d (Some s) =
     _string_to_value (dt_class d) (dt_attributes d) (Some s)).
Proof.
  unfold SQLColumnDataType.to_value. repeat split.
  - intros s Hs.
    apply (is_null_string_spec d (Some s)) in Hs. by rewrite Hs.
  - intros s Hs.
    destruct (SQLColumnDataType._is_null_string d (Some s)) eqn:E; [| done].
    apply (is_null_string_spec d (Some s)) in E. contradiction.
Qed.

(** An integer type: [to_value("NuLL")] is [None], [to_value("42")] is what
    the type converts ["42"] to. *)
Lemma to_value_null_or_convert_witness :
  SQLColumnDataType.to_value Samples.an_integer (Some "NuLL") = Ok VNone /\
  SQLColumnDataType.to_value Samples.an_integer (Some "42") = Ok (VInt 42).
Proof.
  destruct (to_value_null_or_convert Samples.an_integer) as (_ & Hnull & Hconv).
  split.
  - apply Hnull. simpl. auto.
  - rewrite Hconv; [reflexivity |]. simpl. tauto.
Defined.

(** C5: on an instance of the base class itself, [to_value] of a string that
    is not the literal null raises [NotImplementedError] instead of returning
    a value. *)
Theorem base_conversion_unsupported (attributes : list SQLAttribute) (s : string) :
  ~ null_ignoring_case s ->
  _string_to_value SQLColumnDataType.base attributes (Some s) =
    Raise (NotImplementedError "Must be implemented by subclasses") /\
  SQLColumnDataType.to_value
    {| dt_class := SQLColumnDataType.base; dt_attributes := attributes |}
    (Some s) =
    Raise (NotImplementedError "Must be implemented by subclasses").
Proof.
  intros Hs. split; [reflexivity |].
  unfold SQLColumnDataType.to_value.
  destruct (SQLColumnDataType._is_null_string _ (Some s)) eqn:E; [| done].
  apply (is_null_string_spec _ (Some s)) in E. contradiction.
Qed.

(** The base class with the attribute [unsigned], asked to convert ["12"]. *)
Lemma base_conversion_unsupported_witness :
  SQLColumnDataType.to_value
    {| dt_class := SQLColumnDataType.base; dt_attributes := [Samples.unsigned] |}
    (Some "12") =
  Raise (NotImplementedError "Must be implemented by subclasses").
Proof.
  refine (proj2 (base_conversion_unsupported [Samples.unsigned] "12" _)).
  simpl. tauto.
Defined.

(** C1, as the code has it: two column data types are equal exactly when
    their attribute sets are equal (as many members, and every member of the
    one equal to a member of the other); the classes of the two instances
    play no part, so instances of different concrete types with the same
    attributes are equal. *)
Theorem data_type_equality_by_attributes
    (cls1 cls2 : DataTypeClass) (attrs1 attrs2 : list SQLAttribute) :
  (SQLColumnDataType.__eq__ {| dt_class := cls1; dt_attributes := attrs1 |}
     (ODataType {| dt_class := cls2; dt_attributes := attrs2 |}) = true <->
   length attrs1 = length attrs2 /\
   forall a, In a attrs1 ->
     exists b, In b attrs2 /\ SQLAttribute.__eq__ a (OAttribute b) = true) /\
  SQLColumnDataType.__eq__ {| dt_class := cls1; dt_attributes := attrs1 |}
    (ODataType {| dt_class := cls2; dt_attributes := attrs1 |}) = true.
Proof.
  split.
  - apply (data_type_eq_attrs {| dt_class := cls1; dt_attributes := attrs1 |}
             {| dt_class := cls2; dt_attributes := attrs2 |}).
  - apply attrs_eq_refl.
Qed.

(** C1 as stated fails: an integer type and a varchar type that both carry
    the one attribute [unsigned] compare equal, though they are instances of
    different classes. *)
Lemma data_type_equality_counterexample :
  ~ (SQLColumnDataType.__eq__ Samples.an_integer
       (ODataType Samples.a_varchar) = true <->
     dt_class Samples.an_integer = dt_class Samples.a_varchar /\
     attrs_eq (dt_attributes Samples.an_integer)
       (dt_attributes Samples.a_varchar) = true).
Proof.
  intros [Himp _]. destruct (Himp eq_refl) as [E _].
  apply (f_equal class_name) in E. discriminate E.
Qed.

(** ** What equality looks at *)

(** C6: column equality is decided by name, data type, primary-key order,
    nullability, default value, attributes and metadata, and table equality
    by name, columns and metadata, and by nothing else: two values are equal
    exactly when they agree on these, replacing the [doc] of either side
    never changes the outcome, and a value equals itself under any other
    [doc]. *)
Theorem equality_excludes_doc :
  (forall c1 c2 : SQLColumn,
     SQLColumn.__eq__ c1 (OColumn c2) = true <->
     col_name c1 = col_name c2 /\
     SQLColumnDataType.__eq__ (col_type c1) (ODataType (col_type c2)) = true /\
     py_eq (col_primary_key_order c1) (col_primary_key_order c2) = true /\
     col_is_nullable c1 = col_is_nullable c2 /\
     py_eq (col_default_value c1) (col_default_value c2) = true /\
     attrs_eq (col_attributes c1) (col_attributes c2) = true /\
     dict_eq (col_metadata c1) (col_metadata c2) = true) /\
  (forall (c1 c2 : SQLColumn) (doc1 doc2 : option string),
     SQLColumn.__eq__ (with_col_doc c1 doc1) (OColumn (with_col_doc c2 doc2)) =
     SQLColumn.__eq__ c1 (OColumn c2)) /\
  (forall (c : SQLColumn) (doc : option string),
     SQLColumn.__eq__ c (OColumn (with_col_doc c doc)) = true) /\
  (forall t1 t2 : SQLTable,
     SQLTable.__eq__ t1 (OTable t2) = true <->
     tbl_name t1 = tbl_name t2 /\
     Forall2 (fun c1 c2 => SQLColumn.__eq__ c1 (OColumn c2) = true)
       (tbl_columns t1) (tbl_columns t2) /\
     dict_eq (tbl_metadata t1) (tbl_metadata t2) = true) /\
  (forall (t1 t2 : SQLTable) (doc1 doc2 : option string),
     SQLTable.__eq__ (with_tbl_doc t1 doc1) (OTable (with_tbl_doc t2 doc2)) =
     SQLTable.__eq__ t1 (OTable t2)) /\
  (forall (t : SQLTable) (doc : option string),
     SQLTable.__eq__ t (OTable (with_tbl_doc t doc)) = true).
Proof.
  split_and!.
  - apply column_eq_fields.
  - reflexivity.
  - intros c doc. exact (column_eq_refl c).
  - apply table_eq_fields.
  - reflexivity.
  - intros t doc. exact (table_eq_refl t).
Qed.

(** Two columns, and two tables, that differ in nothing but [doc]. *)
Lemma equality_excludes_doc_witness :
  SQLColumn.__eq__ (with_col_doc (Samples.column "id" (VInt 1)) (Some "the key"))
    (OColumn (Samples.column "id" (VInt 1))) = true /\
  SQLTable.__eq__ (with_tbl_doc (Samples.table [Samples.column "id" (VInt 1)])
                     (Some "businesses"))
    (OTable (Samples.table [Samples.column "id" (VInt 1)])) = true.
Proof.
  destruct equality_excludes_doc as (Hcol & _ & _ & Htbl & _).
  split.
  - apply Hcol. repeat split.
  - apply Htbl. repeat split.
    repeat constructor.
Defined.

(** ** Column order *)

Section ColumnOrder.

Lemma positional_equality_of_permutation (columns columns' : list SQLColumn) :
  pairwise_distinct columns ->
  columns' ≡ₚ columns ->
  Forall2 (fun c1 c2 => SQLColumn.__eq__ c1 (OColumn c2) = true)
    columns columns' ->
  columns' = columns.
Proof.
  intros Hdist Hperm Hall.
  apply list_eq_same_length with (length columns); [done | |].
  { symmetry. eapply Forall2_length, Hall. }
  intros i c' c _ Hc' Hc.
  pose proof (Forall2_lookup_lr _ _ _ _ _ _ Hall Hc Hc') as Heq.
  cbv beta in Heq.
  assert (c' ∈ columns) as Hin.
  { rewrite <- Hperm. apply list_elem_of_lookup. eauto. }
  apply list_elem_of_lookup in Hin as [j Hj].
  destruct (decide (i = j)) as [-> | Hne]; [congruence |].
  pose proof (Hdist i j c c' Hc Hj Hne) as Hfalse. congruence.
Qed.

Lemma reverse_changes_distinct_columns (columns : list SQLColumn) :
  pairwise_distinct columns ->
  (2 <= length columns)%nat ->
  rev columns <> columns.
Proof.
  intros Hdist Hlen Hrev.
  destruct columns as [| c0 rest]; [simpl in Hlen; lia |].
  assert (rev (c0 :: rest) !! length rest = Some c0) as Hlast.
  { simpl. rewrite lookup_app_r; rewrite length_rev; [| lia].
    by rewrite Nat.sub_diag. }
  rewrite Hrev in Hlast.
  assert (0%nat <> length rest) as Hne by (simpl in Hlen; lia).
  pose proof (Hdist 0%nat (length rest) c0 c0 eq_refl Hlast Hne) as Hfalse.
  rewrite column_eq_refl in Hfalse. discriminate Hfalse.
Qed.

End ColumnOrder.

(** C7, as the code has it: tables are compared column by column in
    sequence order.  Two tables are equal exactly when their names and their
    metadata are equal, they have as many columns as one another, and the
    columns at every position are equal.  So two tables are unequal as soon
    as one position holds two unequal columns; and for a table whose columns
    are pairwise unequal, any other arrangement of the same columns, the
    reversed one included once there are two, gives an unequal table. *)
Theorem table_equality_is_positional (t1 t2 : SQLTable) :
  (SQLTable.__eq__ t1 (OTable t2) = true <->
     tbl_name t1 = tbl_name t2 /\
     length (tbl_columns t1) = length (tbl_columns t2) /\
     (forall (i : nat) (c1 c2 : SQLColumn),
        tbl_columns t1 !! i = Some c1 -> tbl_columns t2 !! i = Some c2 ->
        SQLColumn.__eq__ c1 (OColumn c2) = true) /\
     dict_eq (tbl_metadata t1) (tbl_metadata t2) = true) /\
  (forall (i : nat) (c1 c2 : SQLColumn),
     tbl_columns t1 !! i = Some c1 -> tbl_columns t2 !! i = Some c2 ->
     SQLColumn.__eq__ c1 (OColumn c2) = false ->
     SQLTable.__eq__ t1 (OTable t2) = false) /\
  (pairwise_distinct (tbl_columns t1) ->
   tbl_columns t2 ≡ₚ tbl_columns t1 ->
   tbl_columns t2 <> tbl_columns t1 ->
   SQLTable.__eq__ t1 (OTable t2) = false) /\
  (pairwise_distinct (tbl_columns t1) ->
   (2 <= length (tbl_columns t1))%nat ->
   SQLTable.__eq__ t1 (OTable (with_columns t1 (rev (tbl_columns t1)))) =
   false).
Proof.
  assert (forall a b : SQLTable,
            pairwise_distinct (tbl_columns a) ->
            tbl_columns b ≡ₚ tbl_columns a ->
            tbl_columns b <> tbl_columns a ->
            SQLTable.__eq__ a (OTable b) = false) as Hperm.
  { intros a b Hdist Hp Hdiff. apply not_true_is_false. intros E.
    apply table_eq_fields in E as (_ & Hall & _).
    apply Hdiff. by apply positional_equality_of_permutation. }
  split_and!.
  - rewrite table_eq_fields, Forall2_same_length_lookup. tauto.
  - intros i c1 c2 H1 H2 Hne. apply not_true_is_false. intros E.
    apply table_eq_fields in E as (_ & Hall & _).
    pose proof (Forall2_lookup_lr _ _ _ _ _ _ Hall H1 H2) as Heq.
    cbv beta in Heq. congruence.
  - apply Hperm.
  - intros Hdist Hlen. apply Hperm; [done | |].
    + symmetry. apply Permutation_rev.
    + by apply reverse_changes_distinct_columns.
Qed.

(** The table with columns [id, name]: equal to itself under another [doc],
    unequal to the table with columns [name, id]. *)
Lemma table_equality_is_positional_witness :
  SQLTable.__eq__
    (Samples.table [Samples.column "id" (VInt 1); Samples.column "name" VNone])
    (OTable (with_tbl_doc
               (Samples.table [Samples.column "id" (VInt 1);
                               Samples.column "name" VNone])
               (Some "businesses"))) = true /\
  SQLTable.__eq__
    (Samples.table [Samples.column "id" (VInt 1); Samples.column "name" VNone])
    (OTable (Samples.table
               [Samples.column "name" VNone; Samples.column "id" (VInt 1)])) =
  false.
Proof.
  split.
  - apply (proj1 (table_equality_is_positional _ _)).
    split_and!; [reflexivity | reflexivity | | reflexivity].
    intros [| [| i]] c1 c2 H1 H2; simpl in H1, H2; try discriminate H1;
      injection H1 as <-; injection H2 as <-; reflexivity.
  - refine (proj1 (proj2 (proj2
              (table_equality_is_positional
                 (Samples.table [Samples.column "id" (VInt 1);
                                 Samples.column "name" VNone])
                 (Samples.table [Samples.column "name" VNone;
                                 Samples.column "id" (VInt 1)])))) _ _ _).
    + intros [| [| i]] [| [| j]] ci cj Hi Hj Hne; simpl in Hi, Hj;
        try discriminate; try congruence;
        injection Hi as <-; injection Hj as <-; reflexivity.
    + apply perm_swap.
    + intros E. discriminate E.
Defined.

(** C7 as stated fails: a column and its copy under another [doc] are equal,
    so the table holding them in the order [a, b] and the table holding them
    in the reversed order [b, a] are equal, although the two column
    sequences differ. *)
Lemma table_order_counterexample :
  [with_col_doc (Samples.column "id" (VInt 1)) (Some "the key");
   Samples.column "id" (VInt 1)] =
  rev [Samples.column "id" (VInt 1);
       with_col_doc (Samples.column "id" (VInt 1)) (Some "the key")] /\
  [with_col_doc (Samples.column "id" (VInt 1)) (Some "the key");
   Samples.column "id" (VInt 1)] ≡ₚ
  [Samples.column "id" (VInt 1);
   with_col_doc (Samples.column "id" (VInt 1)) (Some "the key")] /\
  [with_col_doc (Samples.column "id" (VInt 1)) (Some "the key");
   Samples.column "id" (VInt 1)] <>
  [Samples.column "id" (VInt 1);
   with_col_doc (Samples.column "id" (VInt 1)) (Some "the key")] /\
  SQLTable.__eq__
    (Samples.table
       [Samples.column "id" (VInt 1);
        with_col_doc (Samples.column "id" (VInt 1)) (Some "the key")])
    (OTable
       (Samples.table
          [with_col_doc (Samples.column "id" (VInt 1)) (Some "the key");
           Samples.column "id" (VInt 1)])) = true.
Proof.
  split_and!.
  - reflexivity.
  - apply perm_swap.
  - intros E. discriminate E.
  - reflexivity.
Qed.

(** ** The primary key of a table *)

Section SortedFacts.

Context {A : Type} (key : A -> PyVal).

Local Abbreviation int_key_lt := (int_key_lt key).
Local Abbreviation int_key := (int_key key).

Lemma insert_by_key_perm (x : A) (l : list A) :
  insert_by_key key x l ≡ₚ x :: l.
Proof.
  induction l as [| y l IH]; simpl; [done |].
  destruct (py_lt (key y) (key x)); [| done].
  rewrite IH. apply perm_swap.
Qed.

Lemma sorted_perm (l : list A) : sorted key l ≡ₚ l.
Proof.
  induction l as [| x l IH]; simpl; [done |].
  by rewrite insert_by_key_perm, IH.
Qed.

Lemma int_key_lt_trans (x y z : A) :
  int_key_lt x y -> int_key_lt y z -> int_key_lt x z.
Proof.
  intros (n & m & Hx & Hy & Hnm) (m' & k & Hy' & Hz & Hmk).
  rewrite Hy in Hy'. injection Hy' as <-.
  exists n, k. repeat split; [done | done | lia].
Qed.

Lemma insert_by_key_sorted (x : A) (l : list A) :
  int_key x ->
  Forall int_key l ->
  Forall (fun y => key y <> key x) l ->
  StronglySorted int_key_lt l ->
  StronglySorted int_key_lt (insert_by_key key x l).
Proof.
  intros [n Hx] Hint Hne Hsorted.
  induction Hsorted as [| y l Hsorted IH Hy]; simpl.
  { repeat constructor. }
  apply Forall_cons in Hint as [[m Hm] Hint].
  apply Forall_cons in Hne as [Hyx Hne].
  destruct (py_lt (key y) (key x)) eqn:Hlt; rewrite Hm, Hx in Hlt; simpl in Hlt.
  - apply Z.ltb_lt in Hlt.
    constructor; [by apply IH |].
    rewrite insert_by_key_perm. constructor; [| done].
    exists m, n. auto.
  - apply Z.ltb_ge in Hlt.
    assert (int_key_lt x y) as Hxy.
    { exists n, m. repeat split; [done | done |].
      assert (n <> m) by congruence. lia. }
    constructor; [by constructor |].
    constructor; [done |].
    eapply Forall_impl; [exact Hy |].
    intros z Hz. by apply int_key_lt_trans with y.
Qed.

Lemma sorted_strictly_ascending (l : list A) :
  Forall int_key l ->
  NoDup (map key l) ->
  StronglySorted int_key_lt (sorted key l).
Proof.
  induction l as [| x l IH]; simpl; intros Hint Hnodup.
  { constructor. }
  apply Forall_cons in Hint as [Hx Hint].
  apply NoDup_cons in Hnodup as [Hfresh Hnodup].
  apply insert_by_key_sorted; [done | | | by apply IH].
  - by rewrite sorted_perm.
  - rewrite sorted_perm. apply Forall_forall. intros y Hy E.
    apply Hfresh. rewrite <- E. apply list_elem_of_fmap_2. done.
Qed.

End SortedFacts.

Section PrimaryKeys.

Lemma truthy_key_position (v : PyVal) :
  key_position v -> truthy v = is_not_None v.
Proof.
  intros [-> | (n & -> & Hn)]; simpl; [done |].
  apply negb_true_iff, Z.eqb_neq. lia.
Qed.

Lemma falsy_values (v : PyVal) :
  truthy v = false <->
  v = VNone \/ v = VBool false \/ v = VInt 0 \/ v = VStr "".
Proof.
  destruct v as [| [] | n | s]; simpl.
  - tauto.
  - split; [discriminate | intros [E | [E | [E | E]]]; discriminate E].
  - tauto.
  - rewrite negb_false_iff, Z.eqb_eq. split.
    + intros ->. tauto.
    + intros [E | [E | [E | E]]]; try discriminate E. by injection E.
  - rewrite negb_false_iff, String.eqb_eq. split.
    + intros ->. tauto.
    + intros [E | [E | [E | E]]]; try discriminate E. by injection E.
Qed.

Lemma primary_keys_of_positions (t : SQLTable) :
  Forall (fun c => key_position (col_primary_key_order c)) (tbl_columns t) ->
  SQLTable.primary_keys t = sorted col_primary_key_order (keyed_columns t).
Proof.
  intros Hpos. unfold SQLTable.primary_keys, keyed_columns. f_equal.
  apply List.filter_ext_in. intros c Hc.
  apply truthy_key_position.
  rewrite Forall_forall in Hpos. apply Hpos, list_elem_of_In, Hc.
Qed.

Lemma keyed_columns_int_key (t : SQLTable) :
  Forall (fun c => key_position (col_primary_key_order c)) (tbl_columns t) ->
  Forall (int_key col_primary_key_order) (keyed_columns t).
Proof.
  intros Hpos. apply Forall_forall. intros c Hc.
  apply list_elem_of_In, List.filter_In in Hc as [Hin Hset].
  rewrite Forall_forall in Hpos.
  destruct (Hpos c (proj2 (list_elem_of_In _ _) Hin)) as [E | (n & E & _)].
  - rewrite E in Hset. discriminate Hset.
  - by exists n.
Qed.

Lemma primary_keys_truthy (t : SQLTable) (c : SQLColumn) :
  c ∈ SQLTable.primary_keys t <->
  c ∈ tbl_columns t /\ truthy (col_primary_key_order c) = true.
Proof.
  unfold SQLTable.primary_keys. rewrite sorted_perm.
  rewrite !list_elem_of_In. apply List.filter_In.
Qed.

Lemma primary_keys_skip (t : SQLTable) (before after : list SQLColumn)
    (c : SQLColumn) :
  truthy (col_primary_key_order c) = false ->
  SQLTable.primary_keys (with_columns t (before ++ c :: after)) =
  SQLTable.primary_keys (with_columns t (before ++ after)).
Proof.
  intros Hc. unfold SQLTable.primary_keys. simpl.
  rewrite !List.filter_app. simpl. by rewrite Hc.
Qed.

End PrimaryKeys.

(** C3: when every column of a table has either no [primary_key_order] or a
    positive integer, and the integers are pairwise distinct, [primary_keys]
    holds exactly the columns that have one, in strictly ascending order of
    it, and none of the columns without. *)
Theorem primary_keys_sorted_view (t : SQLTable) :
  Forall (fun c => key_position (col_primary_key_order c)) (tbl_columns t) ->
  NoDup (map col_primary_key_order (keyed_columns t)) ->
  SQLTable.primary_keys t ≡ₚ keyed_columns t /\
  StronglySorted key_before (SQLTable.primary_keys t) /\
  (forall c : SQLColumn,
     col_primary_key_order c = VNone -> c ∉ SQLTable.primary_keys t).
Proof.
  intros Hpos Hdistinct.
  rewrite (primary_keys_of_positions t Hpos).
  split; [apply sorted_perm |]. split.
  - apply sorted_strictly_ascending; [| done].
    by apply keyed_columns_int_key.
  - intros c Hc Hin. rewrite sorted_perm in Hin.
    apply list_elem_of_In, List.filter_In in Hin as [_ Hset].
    rewrite Hc in Hset. discriminate Hset.
Qed.

(** C9: what [primary_keys] keeps is decided by the truth value of
    [primary_key_order]: a column is in the view exactly when it is a column
    of the table with a true [primary_key_order], and a column whose
    [primary_key_order] is 0, or false in any other way, changes the view no
    more than the same column with [None], or than no column at all. *)
Theorem primary_keys_drops_falsy_positions (t : SQLTable) :
  (forall c : SQLColumn,
     c ∈ SQLTable.primary_keys t <->
     c ∈ tbl_columns t /\ truthy (col_primary_key_order c) = true) /\
  (forall (before after : list SQLColumn) (c : SQLColumn),
     truthy (col_primary_key_order c) = false ->
     SQLTable.primary_keys (with_columns t (before ++ c :: after)) =
     SQLTable.primary_keys
       (with_columns t (before ++ with_primary_key_order c VNone :: after)) /\
     SQLTable.primary_keys (with_columns t (before ++ c :: after)) =
     SQLTable.primary_keys (with_columns t (before ++ after))) /\
  (forall v : PyVal,
     truthy v = false <->
     v = VNone \/ v = VBool false \/ v = VInt 0 \/ v = VStr "").
Proof.
  split; [apply primary_keys_truthy |].
  split; [| apply falsy_values].
  intros before after c Hc.
  rewrite (primary_keys_skip t before after c Hc).
  by rewrite (primary_keys_skip t before after (with_primary_key_order c VNone)).
Qed.

(** The table of the specification's example: positions 2, none, 1, none, 3
    give the key [id, city, zip]. *)
Lemma primary_keys_sorted_view_witness :
  SQLTable.primary_keys (Samples.table Samples.five_columns) =
    [Samples.column "id" (VInt 1); Samples.column "city" (VInt 2);
     Samples.column "zip" (VInt 3)] /\
  SQLTable.primary_keys (Samples.table Samples.five_columns) ≡ₚ
    keyed_columns (Samples.table Samples.five_columns) /\
  StronglySorted key_before
    (SQLTable.primary_keys (Samples.table Samples.five_columns)).
Proof.
  split; [reflexivity |].
  refine (let H := primary_keys_sorted_view
                     (Samples.table Samples.five_columns) _ _ in
          conj (proj1 H) (proj1 (proj2 H))).
  - repeat first [apply Forall_nil_2 | apply Forall_cons_2];
      unfold key_position; simpl;
      first [by left | right; eexists; split; [reflexivity | lia]].
  - apply (bool_decide_unpack _). vm_compute. exact I.
Defined.

(** A column with position 0 between two keyed columns. *)
Lemma primary_keys_drops_falsy_positions_witness :
  SQLTable.primary_keys
    (Samples.table [Samples.column "id" (VInt 1); Samples.column "url" (VInt 0);
                    Samples.column "city" (VInt 2)]) =
  SQLTable.primary_keys
    (Samples.table [Samples.column "id" (VInt 1);
                    Samples.column "city" (VInt 2)]).
Proof.
  apply (proj2 (proj1 (proj2 (primary_keys_drops_falsy_positions
                                (Samples.table []))) 
                  [Samples.column "id" (VInt 1)]
                  [Samples.column "city" (VInt 2)]
                  (Samples.column "url" (VInt 0)) eq_refl)).
Defined.

(** ** [assert_equal] against [__eq__] *)

Section AssertEqual.

(** On attributes the two agree: [assert_equal] passes exactly when [==]
    holds. *)
Lemma attribute_assert_equal_iff (a : SQLAttribute) (other : PyObj) :
  SQLAttribute.assert_equal a other = Ok tt <->
  SQLAttribute.__eq__ a other = true.
Proof.
  destruct other as [v | b | d | c | t]; simpl; try (split; discriminate).
  destruct (String.eqb (attr_name a) (attr_name b)); simpl;
    [| split; discriminate].
  destruct (py_eq (attr_value a) (attr_value b)); simpl;
    [| split; discriminate].
  destruct (Bool.eqb (attr_has_value a) (attr_has_value b)); simpl;
    split; (done || discriminate).
Qed.

Lemma for_izip_prefix {A : Type} (body : A -> A -> result unit)
    (l extra : list A) :
  (forall x, body x x = Ok tt) ->
  for_izip body l (l ++ extra) = Ok tt.
Proof.
  intros Hbody. induction l as [| x l IH]; simpl.
  - by destruct extra.
  - by rewrite Hbody.
Qed.

Lemma column_assert_equal_more_attributes (c : SQLColumn)
    (extra : list SQLAttribute) :
  SQLColumn.assert_equal c
    (OColumn (with_attributes c (col_attributes c ++ extra))) = Ok tt.
Proof.
  unfold SQLColumn.assert_equal. simpl.
  rewrite String.eqb_refl, attrs_eq_refl, !py_eq_refl, Bool.eqb_reflx.
  simpl. rewrite for_izip_prefix.
  - simpl. by rewrite dict_eq_refl.
  - intros a.
    exact (proj2 (attribute_assert_equal_iff a (OAttribute a))
             (attribute_eq_refl a)).
Qed.

Lemma column_assert_equal_refl (c : SQLColumn) :
  SQLColumn.assert_equal c (OColumn c) = Ok tt.
Proof.
  pose proof (column_assert_equal_more_attributes c []) as H.
  rewrite app_nil_r in H. by destruct c.
Qed.

Lemma column_eq_more_attributes (c : SQLColumn) (a : SQLAttribute)
    (extra : list SQLAttribute) :
  SQLColumn.__eq__ c
    (OColumn (with_attributes c (col_attributes c ++ a :: extra))) = false.
Proof.
  apply not_true_is_false. intros E.
  apply column_eq_fields in E as (_ & _ & _ & _ & _ & E & _).
  apply set_eq_spec in E as [Hlen _]. simpl in Hlen.
  rewrite length_app in Hlen. simpl in Hlen. lia.
Qed.

Lemma table_assert_equal_more_columns (t : SQLTable)
    (extra : list SQLColumn) :
  SQLTable.assert_equal t
    (OTable (with_columns t (tbl_columns t ++ extra))) = Ok tt.
Proof.
  unfold SQLTable.assert_equal. simpl.
  rewrite String.eqb_refl. simpl.
  rewrite for_izip_prefix by apply column_assert_equal_refl.
  simpl. by rewrite dict_eq_refl.
Qed.

Lemma table_eq_more_columns (t : SQLTable) (c : SQLColumn)
    (extra : list SQLColumn) :
  SQLTable.__eq__ t
    (OTable (with_columns t (tbl_columns t ++ c :: extra))) = false.
Proof.
  apply not_true_is_false. intros E.
  apply table_eq_fields in E as (_ & Hall & _).
  apply Forall2_length in Hall. simpl in Hall.
  rewrite length_app in Hall. simpl in Hall. lia.
Qed.

End AssertEqual.

(** C2, where the code departs from it: [assert_equal] walks the two column
    lists, and the two attribute sets, with [izip], which stops at the end of
    the shorter one.  A table with no column passes [assert_equal] against
    the same table with one column, and a column with no attribute passes it
    against the same column with one attribute, though [==] tells each pair
    apart. *)
Theorem assert_equal_misses_extra_members :
  SQLTable.assert_equal (Samples.table [])
    (OTable (Samples.table [Samples.column "id" (VInt 1)])) = Ok tt /\
  SQLTable.__eq__ (Samples.table [])
    (OTable (Samples.table [Samples.column "id" (VInt 1)])) = false /\
  SQLColumn.assert_equal (Samples.column "id" (VInt 1))
    (OColumn (with_attributes (Samples.column "id" (VInt 1))
                [Samples.unsigned])) = Ok tt /\
  SQLColumn.__eq__ (Samples.column "id" (VInt 1))
    (OColumn (with_attributes (Samples.column "id" (VInt 1))
                [Samples.unsigned])) = false.
Proof.
  split; [| split; [| split]].
  - apply (table_assert_equal_more_columns (Samples.table [])).
  - apply (table_eq_more_columns (Samples.table [])).
  - apply (column_assert_equal_more_attributes (Samples.column "id" (VInt 1))).
  - apply (column_eq_more_attributes (Samples.column "id" (VInt 1))).
Qed.

(** ** The dictionary of an Avro schema record *)

(** C10: the dictionary [to_dict] builds has the keys [schema_id], [schema],
    [status], [topic], [created_at] and [updated_at] for every record, with
    [None] under [topic] when the record has no topic, and has the key
    [base_schema_id] exactly when the record's [base_schema_id] is not
    [None]; it has no other key. *)
Theorem to_dict_keys {Topic TopicDict : Type}
    (topic_to_dict : Topic -> TopicDict) (self : Avro.AvroSchema Topic) :
  let d := Avro.to_dict topic_to_dict self in
  d !! "schema_id" = Some (Avro.DPrim (Avro.id self)) /\
  d !! "schema" = Some (Avro.DPrim (Avro.avro_schema self)) /\
  d !! "status" = Some (Avro.DPrim (Avro.status self)) /\
  d !! "topic" = Some (match Avro.topic self with
                       | None => Avro.DPrim VNone
                       | Some t => Avro.DTopic (topic_to_dict t)
                       end) /\
  d !! "created_at" = Some (Avro.DPrim (Avro.created_at self)) /\
  d !! "updated_at" = Some (Avro.DPrim (Avro.updated_at self)) /\
  (is_Some (d !! "base_schema_id") <-> Avro.base_schema_id self <> VNone) /\
  dom d ⊆ {[ "schema_id"; "schema"; "status"; "topic"; "created_at";
             "updated_at"; "base_schema_id" ]}.
Proof.
  unfold Avro.to_dict.
  destruct (is_not_None (Avro.base_schema_id self)) eqn:E; simpl.
  - split_and!; try (by simplify_map_eq);
      try (rewrite !dom_insert, dom_empty; set_solver).
    split.
    + intros _ Hnone. rewrite Hnone in E. discriminate E.
    + intros _. rewrite lookup_insert_eq. by eexists.
  - split_and!; try (by simplify_map_eq);
      try (rewrite !dom_insert, dom_empty; set_solver).
    split.
    + intros [v Hv]. simplify_map_eq.
    + intros Hnot. destruct (Avro.base_schema_id self); done.
Qed.

(** ** Further properties of the two modules *)

(** *** Attributes *)

Section AttributeFacts.

Lemma py_eq_trans (a b c : PyVal) :
  py_eq a b = true -> py_eq b c = true -> py_eq a c = true.
Proof.
  destruct a as [| x | x | x], b as [| y | y | y], c as [| z | z | z];
    simpl; try discriminate; auto;
    rewrite ?Z.eqb_eq, ?String.eqb_eq; congruence.
Qed.

Lemma attribute_eq_sym (a b : SQLAttribute) :
  SQLAttribute.__eq__ a (OAttribute b) = SQLAttribute.__eq__ b (OAttribute a).
Proof.
  unfold SQLAttribute.__eq__.
  rewrite (String.eqb_sym (attr_name a)), (py_eq_sym (attr_value a)).
  by destruct (attr_has_value a), (attr_has_value b).
Qed.

Lemma attribute_eq_trans (a b c : SQLAttribute) :
  SQLAttribute.__eq__ a (OAttribute b) = true ->
  SQLAttribute.__eq__ b (OAttribute c) = true ->
  SQLAttribute.__eq__ a (OAttribute c) = true.
Proof.
  rewrite !attribute_eq_fields.
  intros (En & Ev & Eh) (En' & Ev' & Eh').
  repeat split; [congruence | by apply py_eq_trans with (attr_value b) |
                 congruence].
Qed.

End AttributeFacts.

(** X1: equality of attributes is symmetric and transitive: [a == b] and
    [b == a] always give the same answer, and equality carries over a chain
    of two; and an attribute is equal to itself exactly when its value is. *)
Theorem attribute_eq_symmetric_transitive :
  (forall a : SQLAttribute,
     SQLAttribute.__eq__ a (OAttribute a) =
     py_eq (attr_value a) (attr_value a)) /\
  (forall a b : SQLAttribute,
     SQLAttribute.__eq__ a (OAttribute b) =
     SQLAttribute.__eq__ b (OAttribute a)) /\
  (forall a b c : SQLAttribute,
     SQLAttribute.__eq__ a (OAttribute b) = true ->
     SQLAttribute.__eq__ b (OAttribute c) = true ->
     SQLAttribute.__eq__ a (OAttribute c) = true).
Proof.
  split_and!.
  - intros a. unfold SQLAttribute.__eq__.
    by rewrite String.eqb_refl, Bool.eqb_reflx, andb_true_r.
  - apply attribute_eq_sym.
  - apply attribute_eq_trans.
Qed.

(** A chain through [True == 1 == True]. *)
Lemma attribute_eq_symmetric_transitive_witness :
  SQLAttribute.__eq__ (SQLAttribute.create_with_value "signed" (VBool true))
    (OAttribute (SQLAttribute.create_with_value "signed" (VBool true))) = true.
Proof.
  apply (proj2 (proj2 attribute_eq_symmetric_transitive) _
           (SQLAttribute.create_with_value "signed" (VInt 1)));
    reflexivity.
Defined.

(** X2: on two attributes [assert_equal] passes exactly when they are equal,
    and when it fails the line of the failing [assert] names the first field
    that differs: the name, else the value, else [has_value]. *)
Theorem attribute_assert_equal_first_mismatch (a b : SQLAttribute) :
  (SQLAttribute.assert_equal a (OAttribute b) = Ok tt <->
     SQLAttribute.__eq__ a (OAttribute b) = true) /\
  (SQLAttribute.assert_equal a (OAttribute b) = Raise (AssertionError 125) <->
     attr_name a <> attr_name b) /\
  (SQLAttribute.assert_equal a (OAttribute b) = Raise (AssertionError 126) <->
     attr_name a = attr_name b /\
     py_eq (attr_value a) (attr_value b) = false) /\
  (SQLAttribute.assert_equal a (OAttribute b) = Raise (AssertionError 127) <->
     attr_name a = attr_name b /\
     py_eq (attr_value a) (attr_value b) = true /\
     attr_has_value a <> attr_has_value b).
Proof.
  split; [apply attribute_assert_equal_iff |].
  unfold SQLAttribute.assert_equal.
  destruct (String.eqb (attr_name a) (attr_name b)) eqn:En; simpl;
    [apply String.eqb_eq in En | apply String.eqb_neq in En].
  - destruct (py_eq (attr_value a) (attr_value b)) eqn:Ev; simpl.
    + destruct (Bool.eqb (attr_has_value a) (attr_has_value b)) eqn:Eh; simpl;
        [apply (proj1 (Bool.eqb_true_iff _ _)) in Eh
        | apply (proj1 (Bool.eqb_false_iff _ _)) in Eh];
        split_and!; split; intros H; try discriminate H; intuition congruence.
    + split_and!; split; intros H; try discriminate H; intuition congruence.
  - split_and!; split; intros H; try discriminate H; intuition congruence.
Qed.

(** X3: an attribute made without a value never equals one made with a
    value, not even with the value [None]; two attributes made the same way
    are equal exactly when their arguments are. *)
Theorem attribute_constructors (n m : string) (v w : PyVal) :
  SQLAttribute.__eq__ (SQLAttribute.__init__ n)
    (OAttribute (SQLAttribute.create_with_value m w)) = false /\
  SQLAttribute.__eq__ (SQLAttribute.create_with_value n v)
    (OAttribute (SQLAttribute.__init__ m)) = false /\
  SQLAttribute.__eq__ (SQLAttribute.__init__ n)
    (OAttribute (SQLAttribute.__init__ m)) = String.eqb n m /\
  SQLAttribute.__eq__ (SQLAttribute.create_with_value n v)
    (OAttribute (SQLAttribute.create_with_value m w)) =
    String.eqb n m && py_eq v w.
Proof.
  unfold SQLAttribute.__eq__; simpl. split_and!.
  - by rewrite andb_false_r.
  - by rewrite andb_false_r.
  - by rewrite !andb_true_r.
  - by rewrite andb_true_r.
Qed.

(** *** Attribute sets *)

Section AttributeSets.

Local Abbreviation aeq := (fun a b => SQLAttribute.__eq__ a (OAttribute b)).

Lemma not_contains_spec (s : list SQLAttribute) (x : SQLAttribute) :
  set_contains aeq s x = false <->
  forall y, In y s -> SQLAttribute.__eq__ x (OAttribute y) = false.
Proof.
  unfold set_contains. induction s as [| z s IH]; cbn [existsb In].
  - split; [intros _ y [] | done].
  - rewrite orb_false_iff, IH. split.
    + intros [Hz Hs] y [<- | Hy]; auto.
    + intros H. split; [apply H; by left | intros y Hy; apply H; by right].
Qed.

Lemma attrs_distinct_cons (a : SQLAttribute) (s : list SQLAttribute) :
  attrs_distinct (a :: s) = true <->
  (forall b, In b s -> SQLAttribute.__eq__ a (OAttribute b) = false) /\
  attrs_distinct s = true.
Proof.
  simpl. by rewrite andb_true_iff, negb_true_iff, not_contains_spec.
Qed.

Lemma attrs_distinct_snoc (s : list SQLAttribute) (x : SQLAttribute) :
  attrs_distinct (s ++ [x]) = true <->
  attrs_distinct s = true /\
  forall y, In y s -> SQLAttribute.__eq__ x (OAttribute y) = false.
Proof.
  induction s as [| a s IH].
  - simpl. split; [intros _; split; [done | intros y []] | done].
  - rewrite <- app_comm_cons, !attrs_distinct_cons, IH. split.
    + intros (Ha & Hs & Hx). split_and!; [| done |].
      * intros b Hb. apply Ha, in_or_app. by left.
      * intros y [<- | Hy]; [| by apply Hx].
        rewrite attribute_eq_sym. apply Ha, in_or_app. right. by left.
    + intros ((Ha & Hs) & Hx). split_and!; [| done |].
      * intros b Hb. apply in_app_or in Hb as [Hb | [<- | []]]; [by apply Ha |].
        rewrite attribute_eq_sym. apply Hx. by left.
      * intros y Hy. apply Hx. by right.
Qed.

Lemma attrs_distinct_perm (s s' : list SQLAttribute) :
  s ≡ₚ s' -> attrs_distinct s = true -> attrs_distinct s' = true.
Proof.
  induction 1 as [| x l l' Hperm IH | x y l | l l' l'' _ IH1 _ IH2]; auto.
  - rewrite !attrs_distinct_cons. intros [Hx Hl]. split; [| by apply IH].
    intros b Hb. apply Hx. apply list_elem_of_In. rewrite Hperm.
    by apply list_elem_of_In.
  - rewrite !attrs_distinct_cons. intros (Hy & Hx & Hl). split_and!; [| | done].
    + intros b [<- | Hb]; [| by apply Hx].
      rewrite attribute_eq_sym. apply Hy. by left.
    + intros b Hb. apply Hy. by right.
Qed.

(** Adding the members of [xs] one by one to the set [acc]. *)
Lemma set_fold_distinct (xs acc : list SQLAttribute) :
  attrs_distinct acc = true ->
  attrs_distinct (fold_left (set_add aeq) xs acc) = true.
Proof.
  revert acc. induction xs as [| x xs IH]; intros acc Hacc; cbn [fold_left]; [done |].
  apply IH. unfold set_add.
  destruct (set_contains aeq acc x) eqn:E; [done |].
  apply attrs_distinct_snoc. split; [done |]. by apply not_contains_spec.
Qed.

Lemma set_fold_keeps (xs acc : list SQLAttribute) (a : SQLAttribute) :
  In a acc -> In a (fold_left (set_add aeq) xs acc).
Proof.
  revert acc. induction xs as [| x xs IH]; intros acc Ha; cbn [fold_left]; [done |].
  apply IH. unfold set_add.
  destruct (set_contains aeq acc x); [done |]. apply in_or_app. by left.
Qed.

Lemma set_fold_members (xs acc : list SQLAttribute) (a : SQLAttribute) :
  In a (fold_left (set_add aeq) xs acc) -> In a acc \/ In a xs.
Proof.
  revert acc. induction xs as [| x xs IH]; intros acc Ha; cbn [fold_left In] in *; [by left |].
  apply IH in Ha as [Ha | Ha]; [| right; by right].
  unfold set_add in Ha. destruct (set_contains aeq acc x); [by left |].
  apply in_app_or in Ha as [Ha | [<- | []]]; [by left | right; by left].
Qed.

Lemma set_fold_covers (xs acc : list SQLAttribute) (a : SQLAttribute) :
  In a xs ->
  exists b, In b (fold_left (set_add aeq) xs acc) /\
            SQLAttribute.__eq__ a (OAttribute b) = true.
Proof.
  revert acc. induction xs as [| x xs IH]; intros acc Ha; cbn [fold_left In] in *; [done |].
  destruct Ha as [-> | Ha]; [| by apply IH].
  unfold set_add. destruct (set_contains aeq acc a) eqn:E.
  - apply set_contains_In in E as (b & Hb & Hab).
    exists b. split; [by apply set_fold_keeps | done].
  - exists a. split; [| apply attribute_eq_refl].
    apply set_fold_keeps, in_or_app. right. by left.
Qed.

(** A list of pairwise different attributes, each equal to a member of [s2],
    is no longer than [s2]; when it is as long, it reaches all of [s2]. *)
Lemma distinct_into_length (s1 s2 : list SQLAttribute) :
  attrs_distinct s1 = true ->
  (forall x, In x s1 ->
     exists y, In y s2 /\ SQLAttribute.__eq__ x (OAttribute y) = true) ->
  (length s1 <= length s2)%nat /\
  ((length s2 <= length s1)%nat ->
   forall y, In y s2 ->
     exists x, In x s1 /\ SQLAttribute.__eq__ y (OAttribute x) = true).
Proof.
  revert s2. induction s1 as [| x s1 IH]; intros s2 Hdist Hinto.
  { split; [simpl; lia |]. intros Hlen y Hy.
    destruct s2; [done | simpl in Hlen; lia]. }
  apply attrs_distinct_cons in Hdist as [Hx Hdist].
  destruct (Hinto x (or_introl eq_refl)) as (y0 & Hy0 & Hxy0).
  apply in_split in Hy0 as (l1 & l2 & ->).
  assert (forall x', In x' s1 ->
            exists y, In y (l1 ++ l2) /\
                      SQLAttribute.__eq__ x' (OAttribute y) = true) as Hinto'.
  { intros x' Hx'. destruct (Hinto x' (or_intror Hx')) as (y & Hy & Hxy).
    exists y. split; [| done].
    apply in_app_or in Hy as [Hy | [<- | Hy]]; apply in_or_app; auto.
    exfalso. rewrite attribute_eq_sym in Hxy.
    pose proof (attribute_eq_trans _ _ _ Hxy0 Hxy) as E.
    rewrite (Hx x' Hx') in E. discriminate E. }
  destruct (IH (l1 ++ l2)%list Hdist Hinto') as [Hle Honto].
  rewrite length_app in *. cbn [length]. split; [lia |].
  intros Hlen y Hy.
  assert (y = y0 \/ In y (l1 ++ l2)) as [-> | Hy'].
  { apply in_app_or in Hy as [Hy | [<- | Hy]]; auto;
      right; apply in_or_app; auto. }
  - exists x. split; [by left | by rewrite attribute_eq_sym].
  - cbn [length] in Hlen.
    destruct (Honto ltac:(lia) y Hy') as (x' & Hx' & E).
    exists x'. split; [by right | done].
Qed.

Lemma attrs_eq_sym (s1 s2 : list SQLAttribute) :
  attrs_distinct s1 = true ->
  attrs_eq s1 s2 = true -> attrs_eq s2 s1 = true.
Proof.
  intros Hdist E. apply set_eq_spec in E as [Hlen Hinto].
  apply set_eq_spec. split; [done |].
  apply (distinct_into_length s1 s2 Hdist Hinto). lia.
Qed.

Lemma attrs_eq_trans (s1 s2 s3 : list SQLAttribute) :
  attrs_eq s1 s2 = true -> attrs_eq s2 s3 = true -> attrs_eq s1 s3 = true.
Proof.
  intros E12 E23.
  apply set_eq_spec in E12 as [Hlen12 H12].
  apply set_eq_spec in E23 as [Hlen23 H23].
  apply set_eq_spec. split; [congruence |].
  intros x Hx. destruct (H12 x Hx) as (y & Hy & Exy).
  destruct (H23 y Hy) as (z & Hz & Eyz).
  exists z. split; [done |]. by apply attribute_eq_trans with y.
Qed.

Lemma attribute_set_spec `{SetOrder SQLAttribute}
    (attributes : option (list SQLAttribute)) :
  attrs_distinct (attribute_set attributes) = true /\
  (forall a, In a (attribute_set attributes) -> In a (or_empty attributes)) /\
  (forall a, In a (or_empty attributes) ->
     exists b, In b (attribute_set attributes) /\
               SQLAttribute.__eq__ a (OAttribute b) = true).
Proof.
  unfold attribute_set, set_of_list, set_members.
  set (xs := or_empty attributes).
  pose proof (iteration_order_perm (fold_left (set_add aeq) xs [])) as Hperm.
  split_and!.
  - apply attrs_distinct_perm with (fold_left (set_add aeq) xs []);
      [by symmetry |].
    by apply set_fold_distinct.
  - intros a Ha. apply list_elem_of_In in Ha. rewrite Hperm in Ha.
    apply list_elem_of_In, set_fold_members in Ha as [[] | Ha]. done.
  - intros a Ha. destruct (set_fold_covers xs [] a Ha) as (b & Hb & E).
    exists b. split; [| done].
    apply list_elem_of_In. rewrite Hperm. by apply list_elem_of_In.
Qed.

End AttributeSets.

(** X4: the constructors of a column data type and of a column leave a
    well-formed attribute set: its members are attributes of the list that
    was passed, every attribute of that list has an equal member, no two
    members are equal, and [None] or an empty list gives the empty set; the
    other arguments are stored as they were given.  This holds whatever the
    order in which the runtime iterates sets. *)
Theorem attribute_sets_after_init `{SetOrder SQLAttribute}
    (cls : DataTypeClass) (attributes : option (list SQLAttribute))
    (name : string) (type : SQLColumnDataType) (pk : PyVal) (nullable : bool)
    (default : PyVal) (doc : option string) (metadata : gmap string PyVal) :
  let d := SQLColumnDataType.__init__ cls attributes in
  let c := SQLColumn.__init__ name type pk nullable default attributes doc
             metadata in
  (attrs_distinct (dt_attributes d) = true /\
   (forall a, In a (dt_attributes d) -> In a (or_empty attributes)) /\
   (forall a, In a (or_empty attributes) ->
      exists b, In b (dt_attributes d) /\
                SQLAttribute.__eq__ a (OAttribute b) = true)) /\
  (attrs_distinct (col_attributes c) = true /\
   (forall a, In a (col_attributes c) -> In a (or_empty attributes)) /\
   (forall a, In a (or_empty attributes) ->
      exists b, In b (col_attributes c) /\
                SQLAttribute.__eq__ a (OAttribute b) = true)) /\
  dt_attributes (SQLColumnDataType.__init__ cls None) = [] /\
  dt_attributes (SQLColumnDataType.__init__ cls (Some [])) = [] /\
  col_attributes (SQLColumn.__init__ name type pk nullable default None doc
                    metadata) = [] /\
  col_attributes (SQLColumn.__init__ name type pk nullable default (Some [])
                    doc metadata) = [] /\
  dt_class d = cls /\
  (col_name c = name /\ col_type c = type /\
   col_primary_key_order c = pk /\ col_is_nullable c = nullable /\
   col_default_value c = default /\ col_doc c = doc /\
   col_metadata c = metadata) /\
  column_sets_ok
    (SQLColumn.__init__ name d pk nullable default attributes doc metadata).
Proof.
  pose proof (attribute_set_spec attributes) as Hspec.
  assert (attribute_set None = [] /\ attribute_set (Some []) = []) as [E1 E2].
  { unfold attribute_set, set_of_list, set_members, or_empty.
    cbn [fold_left].
    pose proof (iteration_order_perm (@nil SQLAttribute)) as Hnil.
    apply Permutation_nil_r in Hnil. by rewrite Hnil. }
  cbv zeta. unfold SQLColumnDataType.__init__, SQLColumn.__init__.
  cbn [dt_class dt_attributes col_name col_type col_primary_key_order
       col_is_nullable col_default_value col_doc col_attributes col_metadata].
  split_and!; try done; try apply Hspec.
  split; cbn [col_type col_attributes dt_attributes]; apply Hspec.
Qed.

Section AttributeLookup.

Lemma lookup_fold_last (name : string) (attributes : list SQLAttribute)
    (d : gmap string SQLAttribute) :
  fold_left (fun d attr => <[attr_name attr := attr]> d) attributes d !! name =
  match last_named name attributes with
  | Some a => Some a
  | None => d !! name
  end.
Proof.
  revert d. unfold last_named.
  induction attributes as [| a rest IH]; intros d; cbn [fold_left List.filter].
  { done. }
  rewrite IH. destruct (String.eqb (attr_name a) name) eqn:E.
  - apply String.eqb_eq in E. rewrite last_cons.
    destruct (last _); [done |]. by rewrite <- E, lookup_insert_eq.
  - apply String.eqb_neq in E.
    destruct (last _); [done |]. by rewrite lookup_insert_ne.
Qed.

Lemma attributes_lookup_last (name : string) (attributes : list SQLAttribute) :
  attributes_lookup attributes !! name = last_named name attributes.
Proof.
  unfold attributes_lookup. rewrite lookup_fold_last.
  by destruct (last_named name attributes).
Qed.

Lemma last_named_Some (name : string) (attributes : list SQLAttribute)
    (a : SQLAttribute) :
  last_named name attributes = Some a ->
  In a attributes /\ attr_name a = name.
Proof.
  unfold last_named. intros E.
  apply last_Some_elem_of, list_elem_of_In, List.filter_In in E as [Hin En].
  by apply String.eqb_eq in En.
Qed.

Lemma last_named_None (name : string) (attributes : list SQLAttribute) :
  last_named name attributes = None <->
  forall a, In a attributes -> attr_name a <> name.
Proof.
  unfold last_named. rewrite last_None. split.
  - intros E a Ha En.
    assert (In a (List.filter (fun a => String.eqb (attr_name a) name)
                    attributes)) as Hin.
    { apply List.filter_In. split; [done |]. by apply String.eqb_eq. }
    rewrite E in Hin. destruct Hin.
  - intros Hno.
    destruct (List.filter _ attributes) as [| a l] eqn:E; [done |].
    assert (In a (List.filter (fun a => String.eqb (attr_name a) name)
                    attributes)) as Hin by (rewrite E; by left).
    apply List.filter_In in Hin as [Hin En]. apply String.eqb_eq in En.
    by destruct (Hno a Hin).
Qed.

Lemma last_named_cons (name : string) (a : SQLAttribute)
    (rest : list SQLAttribute) :
  last_named name (a :: rest) =
  if String.eqb (attr_name a) name
  then match last_named name rest with
       | Some b => Some b
       | None => Some a
       end
  else last_named name rest.
Proof.
  unfold last_named. cbn [List.filter].
  destruct (String.eqb (attr_name a) name); [apply last_cons | done].
Qed.

Lemma last_named_unique (attributes : list SQLAttribute) (a : SQLAttribute) :
  NoDup (map attr_name attributes) ->
  In a attributes ->
  last_named (attr_name a) attributes = Some a.
Proof.
  induction attributes as [| b rest IH]; intros Hnd Ha; [destruct Ha |].
  cbn [map] in Hnd. apply NoDup_cons in Hnd as [Hb Hnd].
  rewrite last_named_cons. destruct Ha as [-> | Ha].
  - rewrite String.eqb_refl.
    assert (last_named (attr_name a) rest = None) as ->; [| done].
    apply last_named_None. intros c Hc En. apply Hb.
    rewrite <- En. apply list_elem_of_fmap_2. by apply list_elem_of_In.
  - destruct (String.eqb (attr_name b) (attr_name a)) eqn:E; [| by apply IH].
    apply String.eqb_eq in E. exfalso. apply Hb. rewrite E.
    apply list_elem_of_fmap_2. by apply list_elem_of_In.
Qed.

End AttributeLookup.

(** X5: on a column data type, [attribute_exists(name)] is true exactly when
    some member of the attribute set has that name, [get_attribute(name)] is
    [None] exactly when [attribute_exists(name)] is false, and what
    [get_attribute] returns is a member of the set with the name asked for. *)
Theorem data_type_lookup_by_name (self : SQLColumnDataType) (name : string) :
  (SQLColumnDataType.attribute_exists self name = true <->
     exists a, In a (dt_attributes self) /\ attr_name a = name) /\
  (SQLColumnDataType.get_attribute self name = None <->
     SQLColumnDataType.attribute_exists self name = false) /\
  (forall a, SQLColumnDataType.get_attribute self name = Some a ->
     In a (dt_attributes self) /\ attr_name a = name).
Proof.
  unfold SQLColumnDataType.attribute_exists, SQLColumnDataType.get_attribute,
    SQLColumnDataType._attributes_lookup.
  rewrite attributes_lookup_last.
  destruct (last_named name (dt_attributes self)) as [a |] eqn:E.
  - split_and!.
    + split; [intros _ | done]. exists a. by apply last_named_Some.
    + split; discriminate.
    + intros a' [= <-]. by apply last_named_Some.
  - split_and!; try done.
    split; [discriminate |]. intros (a & Ha & En).
    exfalso. by apply (proj1 (last_named_None _ _) E a).
Qed.

(** X6: when several members of the set carry the same name,
    [get_attribute] returns the one the set iterates last, on a data type as
    on a column. *)
Theorem get_attribute_last_write_wins (name : string) :
  (forall self : SQLColumnDataType,
     SQLColumnDataType.get_attribute self name =
     last_named name (dt_attributes self)) /\
  (forall self : SQLColumn,
     SQLColumn.get_attribute self name =
     last_named name (col_attributes self)).
Proof.
  split; intros self; apply attributes_lookup_last.
Qed.

(** X7: when the names of the attributes are pairwise different,
    [get_attribute] gives back each attribute under its own name, on a data
    type as on a column. *)
Theorem get_attribute_of_member (attributes : list SQLAttribute)
    (a : SQLAttribute) :
  NoDup (map attr_name attributes) ->
  In a attributes ->
  (forall cls : DataTypeClass,
     SQLColumnDataType.get_attribute
       {| dt_class := cls; dt_attributes := attributes |} (attr_name a) =
     Some a) /\
  (forall c : SQLColumn,
     SQLColumn.get_attribute (with_attributes c attributes) (attr_name a) =
     Some a).
Proof.
  intros Hnd Ha. split; intros x;
    unfold SQLColumnDataType.get_attribute, SQLColumn.get_attribute,
      SQLColumnDataType._attributes_lookup, SQLColumn._attributes_lookup;
    rewrite attributes_lookup_last; by apply last_named_unique.
Qed.

(** A column with the attributes [unsigned] and [char_set = utf8]. *)
Lemma get_attribute_of_member_witness :
  SQLColumn.get_attribute
    (with_attributes (Samples.column "id" (VInt 1))
       [Samples.unsigned; Samples.charset "utf8"]) "char_set" =
  Some (Samples.charset "utf8").
Proof.
  refine (proj2 (get_attribute_of_member
                   [Samples.unsigned; Samples.charset "utf8"]
                   (Samples.charset "utf8") _ _) (Samples.column "id" (VInt 1))).
  - apply (bool_decide_unpack _). vm_compute. exact I.
  - right. by left.
Defined.

Section ConstructedSets.

Context `{SetOrder SQLAttribute}.

Local Abbreviation aeq := (fun a b => SQLAttribute.__eq__ a (OAttribute b)).

Lemma attribute_set_same_members (xs ys : list SQLAttribute) :
  (forall x, In x xs ->
     exists y, In y ys /\ SQLAttribute.__eq__ x (OAttribute y) = true) ->
  (forall y, In y ys ->
     exists x, In x xs /\ SQLAttribute.__eq__ y (OAttribute x) = true) ->
  attrs_eq (attribute_set (Some xs)) (attribute_set (Some ys)) = true.
Proof.
  intros Hxy Hyx.
  destruct (attribute_set_spec (Some xs)) as (Hd1 & Hin1 & Hcov1).
  destruct (attribute_set_spec (Some ys)) as (Hd2 & Hin2 & Hcov2).
  cbn [or_empty] in *.
  assert (forall a, In a (attribute_set (Some xs)) ->
            exists b, In b (attribute_set (Some ys)) /\
                      SQLAttribute.__eq__ a (OAttribute b) = true) as H12.
  { intros a Ha. destruct (Hxy a (Hin1 a Ha)) as (y & Hy & Eay).
    destruct (Hcov2 y Hy) as (b & Hb & Eyb).
    exists b. split; [done |]. by apply attribute_eq_trans with y. }
  assert (forall b, In b (attribute_set (Some ys)) ->
            exists a, In a (attribute_set (Some xs)) /\
                      SQLAttribute.__eq__ b (OAttribute a) = true) as H21.
  { intros b Hb. destruct (Hyx b (Hin2 b Hb)) as (x & Hx & Ebx).
    destruct (Hcov1 x Hx) as (a & Ha & Exa).
    exists a. split; [done |]. by apply attribute_eq_trans with x. }
  apply set_eq_spec. split; [| done].
  pose proof (proj1 (distinct_into_length _ _ Hd1 H12)).
  pose proof (proj1 (distinct_into_length _ _ Hd2 H21)). lia.
Qed.

Lemma set_fold_no_repeat (xs acc : list SQLAttribute) :
  NoDup (map attr_name (acc ++ xs)) ->
  fold_left (set_add aeq) xs acc = (acc ++ xs)%list.
Proof.
  revert acc. induction xs as [| x xs IH]; intros acc Hnd; cbn [fold_left].
  { by rewrite app_nil_r. }
  assert (set_add aeq acc x = (acc ++ [x])%list) as ->.
  { unfold set_add.
    destruct (set_contains aeq acc x) eqn:E; [exfalso | done].
    apply set_contains_In in E as (y & Hy & Exy).
    apply attribute_eq_fields in Exy as (En & _).
    rewrite map_app in Hnd. cbn [map] in Hnd.
    apply NoDup_app in Hnd as (_ & Hsep & _).
    apply (Hsep (attr_name y)).
    - apply list_elem_of_fmap_2. by apply list_elem_of_In.
    - rewrite <- En. by left. }
  rewrite IH; rewrite <- app_assoc; done.
Qed.

Lemma attribute_set_names (xs : list SQLAttribute) :
  NoDup (map attr_name xs) ->
  attribute_set (Some xs) ≡ₚ xs.
Proof.
  intros Hnd. unfold attribute_set, set_of_list, set_members, or_empty.
  rewrite iteration_order_perm. by rewrite (set_fold_no_repeat xs []).
Qed.

End ConstructedSets.

(** X8: what a constructor was given decides equality only up to order and
    repetition: two data types, or two columns alike in everything else,
    built from attribute lists with the same attributes are equal, whatever
    order a set iterates in. *)
Theorem init_ignores_order_and_repeats `{SetOrder SQLAttribute}
    (xs ys : list SQLAttribute) :
  (forall x, In x xs ->
     exists y, In y ys /\ SQLAttribute.__eq__ x (OAttribute y) = true) ->
  (forall y, In y ys ->
     exists x, In x xs /\ SQLAttribute.__eq__ y (OAttribute x) = true) ->
  (forall cls1 cls2 : DataTypeClass,
     SQLColumnDataType.__eq__ (SQLColumnDataType.__init__ cls1 (Some xs))
       (ODataType (SQLColumnDataType.__init__ cls2 (Some ys))) = true) /\
  (forall name type pk nullable default doc1 doc2 metadata,
     SQLColumn.__eq__
       (SQLColumn.__init__ name type pk nullable default (Some xs) doc1
          metadata)
       (OColumn (SQLColumn.__init__ name type pk nullable default (Some ys)
                   doc2 metadata)) = true).
Proof.
  intros Hxy Hyx.
  pose proof (attribute_set_same_members xs ys Hxy Hyx) as E.
  split; [done |].
  intros name type pk nullable default doc1 doc2 metadata.
  apply column_eq_fields. cbn.
  split_and!; auto using py_eq_refl, dict_eq_refl.
  apply attrs_eq_refl.
Qed.

(** [unsigned, char_set, unsigned] against [char_set, unsigned], under the
    reversed iteration order. *)
Lemma init_ignores_order_and_repeats_witness :
  SQLColumnDataType.__eq__
    (@SQLColumnDataType.__init__ Samples.reverse_order Samples.IntegerType
       (Some [Samples.unsigned; Samples.charset "utf8"; Samples.unsigned]))
    (ODataType
       (@SQLColumnDataType.__init__ Samples.reverse_order Samples.IntegerType
          (Some [Samples.charset "utf8"; Samples.unsigned]))) = true.
Proof.
  refine (proj1 (@init_ignores_order_and_repeats Samples.reverse_order
                   [Samples.unsigned; Samples.charset "utf8"; Samples.unsigned]
                   [Samples.charset "utf8"; Samples.unsigned] _ _) _ _).
  - intros x [<- | [<- | [<- | []]]].
    + exists Samples.unsigned. split; [right; by left | reflexivity].
    + exists (Samples.charset "utf8"). split; [by left | reflexivity].
    + exists Samples.unsigned. split; [right; by left | reflexivity].
  - intros y [<- | [<- | []]].
    + exists (Samples.charset "utf8"). split; [right; by left | reflexivity].
    + exists Samples.unsigned. split; [by left | reflexivity].
Defined.

(** X9: after construction from a list, [attribute_exists(name)] is true
    exactly when the list has an attribute of that name; and when the names
    in the list are pairwise different, [get_attribute] returns each
    attribute of the list under its name, whatever order a set iterates in. *)
Theorem lookup_after_init `{SetOrder SQLAttribute}
    (cls : DataTypeClass) (xs : list SQLAttribute) (name : string) :
  (SQLColumnDataType.attribute_exists
     (SQLColumnDataType.__init__ cls (Some xs)) name = true <->
   exists a, In a xs /\ attr_name a = name) /\
  (NoDup (map attr_name xs) ->
   forall a, In a xs ->
     SQLColumnDataType.get_attribute
       (SQLColumnDataType.__init__ cls (Some xs)) (attr_name a) = Some a).
Proof.
  destruct (attribute_set_spec (Some xs)) as (_ & Hin & Hcov).
  cbn [or_empty] in *. split.
  - unfold SQLColumnDataType.attribute_exists, SQLColumnDataType.get_attribute,
      SQLColumnDataType._attributes_lookup, SQLColumnDataType.__init__.
    cbn [dt_attributes]. rewrite attributes_lookup_last.
    destruct (last_named name (attribute_set (Some xs))) as [a |] eqn:E.
    + split; [intros _ | done].
      apply last_named_Some in E as [Ha En]. exists a. auto.
    + split; [discriminate |]. intros (a & Ha & En). exfalso.
      destruct (Hcov a Ha) as (b & Hb & Eab).
      apply attribute_eq_fields in Eab as (Enb & _).
      apply (proj1 (last_named_None _ _) E b Hb). congruence.
  - intros Hnd a Ha.
    unfold SQLColumnDataType.get_attribute,
      SQLColumnDataType._attributes_lookup, SQLColumnDataType.__init__.
    cbn [dt_attributes]. rewrite attributes_lookup_last.
    pose proof (attribute_set_names xs Hnd) as Hperm.
    apply last_named_unique.
    + by rewrite Hperm.
    + apply list_elem_of_In. rewrite Hperm. by apply list_elem_of_In.
Qed.

(** A data type built from [unsigned] and [char_set = utf8], asked for
    [char_set]. *)
Lemma lookup_after_init_witness :
  @SQLColumnDataType.get_attribute
    (@SQLColumnDataType.__init__ Samples.reverse_order Samples.VarcharType
       (Some [Samples.unsigned; Samples.charset "utf8"])) "char_set" =
  Some (Samples.charset "utf8").
Proof.
  refine (proj2 (@lookup_after_init Samples.reverse_order Samples.VarcharType
                   [Samples.unsigned; Samples.charset "utf8"] "char_set")
            _ (Samples.charset "utf8") _).
  - apply (bool_decide_unpack _). vm_compute. exact I.
  - right. by left.
Defined.

(** *** Equality as a relation *)

Section EqualityRelation.

(** Two keyword dictionaries are equal exactly when they have the same keys
    with equal values. *)
Lemma dict_eq_keywise (d1 d2 : gmap string PyVal) :
  dict_eq d1 d2 = true <->
  forall k, match d1 !! k, d2 !! k with
            | Some v, Some w => py_eq v w = true
            | None, None => True
            | _, _ => False
            end.
Proof.
  rewrite dict_eq_spec. split.
  - intros [Hsize Hinto] k.
    assert (dom d1 ≡ dom d2) as Hdom.
    { apply set_subseteq_size_equiv.
      - intros j Hj. apply elem_of_dom in Hj as [v Hv].
        destruct (Hinto j v Hv) as (w & Hw & _). apply elem_of_dom. eauto.
      - rewrite !size_dom. lia. }
    destruct (d1 !! k) as [v |] eqn:E1.
    + destruct (Hinto k v E1) as (w & -> & E). done.
    + destruct (d2 !! k) as [w |] eqn:E2; [| done].
      assert (k ∈ dom d1) as Hk by (rewrite Hdom; apply elem_of_dom; eauto).
      apply elem_of_dom in Hk as [v Hv]. congruence.
  - intros Hkeys.
    assert (dom d1 ≡ dom d2) as Hdom.
    { intros k. rewrite !elem_of_dom. specialize (Hkeys k).
      destruct (d1 !! k), (d2 !! k); try done;
        split; intros [? ?]; (done || eauto). }
    split.
    + by rewrite <- !size_dom, Hdom.
    + intros k v Hv. specialize (Hkeys k). rewrite Hv in Hkeys.
      destruct (d2 !! k) as [w |]; [eauto | done].
Qed.

Lemma dict_eq_sym (d1 d2 : gmap string PyVal) :
  dict_eq d1 d2 = true -> dict_eq d2 d1 = true.
Proof.
  rewrite !dict_eq_keywise. intros Hkeys k. specialize (Hkeys k).
  destruct (d1 !! k), (d2 !! k); try done. by rewrite py_eq_sym.
Qed.

Lemma dict_eq_trans (d1 d2 d3 : gmap string PyVal) :
  dict_eq d1 d2 = true -> dict_eq d2 d3 = true -> dict_eq d1 d3 = true.
Proof.
  rewrite !dict_eq_keywise. intros H12 H23 k.
  specialize (H12 k). specialize (H23 k).
  destruct (d1 !! k), (d2 !! k), (d3 !! k); try done.
  by eapply py_eq_trans.
Qed.

Lemma column_eq_sym (c1 c2 : SQLColumn) :
  column_sets_ok c1 ->
  SQLColumn.__eq__ c1 (OColumn c2) = true ->
  SQLColumn.__eq__ c2 (OColumn c1) = true.
Proof.
  intros [Hty Hat]. rewrite !column_eq_fields.
  intros (En & Et & Ep & Ei & Ed & Ea & Em).
  split_and!; try done.
  - by apply attrs_eq_sym.
  - by rewrite py_eq_sym.
  - by rewrite py_eq_sym.
  - by apply attrs_eq_sym.
  - by apply dict_eq_sym.
Qed.

Lemma column_eq_trans (c1 c2 c3 : SQLColumn) :
  SQLColumn.__eq__ c1 (OColumn c2) = true ->
  SQLColumn.__eq__ c2 (OColumn c3) = true ->
  SQLColumn.__eq__ c1 (OColumn c3) = true.
Proof.
  rewrite !column_eq_fields.
  intros (En & Et & Ep & Ei & Ed & Ea & Em)
         (En' & Et' & Ep' & Ei' & Ed' & Ea' & Em').
  split_and!; try congruence.
  - by eapply attrs_eq_trans.
  - by eapply py_eq_trans.
  - by eapply py_eq_trans.
  - by eapply attrs_eq_trans.
  - by eapply dict_eq_trans.
Qed.

Lemma columns_eq_sym (l1 l2 : list SQLColumn) :
  Forall column_sets_ok l1 ->
  Forall2 (fun c1 c2 => SQLColumn.__eq__ c1 (OColumn c2) = true) l1 l2 ->
  Forall2 (fun c1 c2 => SQLColumn.__eq__ c1 (OColumn c2) = true) l2 l1.
Proof.
  intros Hok Hall. induction Hall as [| x y l l' E _ IH]; [constructor |].
  apply Forall_cons in Hok as [Hx Hok].
  constructor; [by apply column_eq_sym | by apply IH].
Qed.

End EqualityRelation.

(** X10: equality of columns is symmetric on columns whose attribute sets
    are sets (no two members equal), as the constructors build them:
    [c1 == c2] and [c2 == c1] give the same answer. *)
Theorem column_eq_symmetric (c1 c2 : SQLColumn) :
  column_sets_ok c1 -> column_sets_ok c2 ->
  SQLColumn.__eq__ c1 (OColumn c2) = SQLColumn.__eq__ c2 (OColumn c1).
Proof.
  intros H1 H2.
  destruct (SQLColumn.__eq__ c1 (OColumn c2)) eqn:E12.
  - symmetry. by apply column_eq_sym.
  - destruct (SQLColumn.__eq__ c2 (OColumn c1)) eqn:E21; [| done].
    apply column_eq_sym in E21; [congruence | done].
Qed.

(** Two columns whose attribute sets hold the same two attributes in
    opposite iteration orders. *)
Lemma column_eq_symmetric_witness :
  SQLColumn.__eq__
    (with_attributes (Samples.column "id" (VInt 1))
       [Samples.unsigned; Samples.charset "utf8"])
    (OColumn (with_attributes (Samples.column "id" (VInt 1))
                [Samples.charset "utf8"; Samples.unsigned])) =
  SQLColumn.__eq__
    (with_attributes (Samples.column "id" (VInt 1))
       [Samples.charset "utf8"; Samples.unsigned])
    (OColumn (with_attributes (Samples.column "id" (VInt 1))
                [Samples.unsigned; Samples.charset "utf8"])).
Proof.
  apply column_eq_symmetric; split; reflexivity.
Defined.

(** X11: equality of tables is symmetric on tables whose columns all have
    attribute sets that are sets. *)
Theorem table_eq_symmetric (t1 t2 : SQLTable) :
  Forall column_sets_ok (tbl_columns t1) ->
  Forall column_sets_ok (tbl_columns t2) ->
  SQLTable.__eq__ t1 (OTable t2) = SQLTable.__eq__ t2 (OTable t1).
Proof.
  assert (forall a b : SQLTable,
            Forall column_sets_ok (tbl_columns a) ->
            SQLTable.__eq__ a (OTable b) = true ->
            SQLTable.__eq__ b (OTable a) = true) as Hsym.
  { intros a b Hok. rewrite !table_eq_fields. intros (En & Hall & Em).
    split_and!; [done | | by apply dict_eq_sym].
    by apply columns_eq_sym. }
  intros H1 H2.
  destruct (SQLTable.__eq__ t1 (OTable t2)) eqn:E12.
  - symmetry. by apply Hsym.
  - destruct (SQLTable.__eq__ t2 (OTable t1)) eqn:E21; [| done].
    apply Hsym in E21; [congruence | done].
Qed.

(** The sample table against itself with another [doc]. *)
Lemma table_eq_symmetric_witness :
  SQLTable.__eq__ (Samples.table Samples.five_columns)
    (OTable (with_tbl_doc (Samples.table Samples.five_columns) (Some "biz"))) =
  SQLTable.__eq__ (with_tbl_doc (Samples.table Samples.five_columns) (Some "biz"))
    (OTable (Samples.table Samples.five_columns)).
Proof.
  apply table_eq_symmetric;
    repeat first [apply Forall_nil_2 | apply Forall_cons_2]; split; reflexivity.
Defined.

(** X12: equality carries over a chain of two, for column data types, for
    columns and for tables. *)
Theorem equality_transitive :
  (forall d1 d2 d3 : SQLColumnDataType,
     SQLColumnDataType.__eq__ d1 (ODataType d2) = true ->
     SQLColumnDataType.__eq__ d2 (ODataType d3) = true ->
     SQLColumnDataType.__eq__ d1 (ODataType d3) = true) /\
  (forall c1 c2 c3 : SQLColumn,
     SQLColumn.__eq__ c1 (OColumn c2) = true ->
     SQLColumn.__eq__ c2 (OColumn c3) = true ->
     SQLColumn.__eq__ c1 (OColumn c3) = true) /\
  (forall t1 t2 t3 : SQLTable,
     SQLTable.__eq__ t1 (OTable t2) = true ->
     SQLTable.__eq__ t2 (OTable t3) = true ->
     SQLTable.__eq__ t1 (OTable t3) = true).
Proof.
  split_and!.
  - intros d1 d2 d3. apply attrs_eq_trans.
  - apply column_eq_trans.
  - intros t1 t2 t3. rewrite !table_eq_fields.
    intros (En & Hall & Em) (En' & Hall' & Em').
    split_and!; [congruence | | by eapply dict_eq_trans].
    eapply Forall2_trans; [| exact Hall | exact Hall'].
    intros x y z. apply column_eq_trans.
Qed.

(** Three integer types with the attribute [unsigned] under three classes. *)
Lemma equality_transitive_witness :
  SQLColumnDataType.__eq__ Samples.an_integer
    (ODataType {| dt_class := SQLColumnDataType.base;
                  dt_attributes := [Samples.unsigned] |}) = true.
Proof.
  apply (proj1 equality_transitive Samples.an_integer Samples.a_varchar);
    reflexivity.
Defined.

(** *** [assert_equal], further *)

(** Reduce the field accesses on records built in place. *)
Ltac fields :=
  cbn [with_attributes with_columns with_col_doc with_tbl_doc
       with_primary_key_order
       col_name col_type col_primary_key_order col_is_nullable
       col_default_value col_doc col_attributes col_metadata
       tbl_name tbl_columns tbl_doc tbl_metadata].

Section AssertEqualFacts.

Lemma then_ok (m k : result unit) :
  (m ;; k) = Ok tt <-> m = Ok tt /\ k = Ok tt.
Proof.
  destruct m as [[] | e]; simpl; [tauto |].
  split; [discriminate | intros [E _]; discriminate E].
Qed.

Lemma assert_ok (lineno : nat) (cond : bool) :
  assert_ lineno cond = Ok tt <-> cond = true.
Proof. destruct cond; simpl; split; (done || discriminate). Qed.

Lemma for_izip_same_length {A B : Type} (body : A -> B -> result unit)
    (xs : list A) (ys : list B) :
  length xs = length ys ->
  for_izip body xs ys = Ok tt <->
  Forall2 (fun x y => body x y = Ok tt) xs ys.
Proof.
  revert ys. induction xs as [| x xs IH]; intros [| y ys] Hlen;
    simpl in Hlen; try discriminate Hlen; cbn [for_izip].
  - split; [constructor | done].
  - rewrite then_ok, IH by lia. split.
    + intros [? ?]. by constructor.
    + inversion 1; subst. auto.
Qed.

Lemma column_assert_equal_ok (c1 c2 : SQLColumn) :
  SQLColumn.assert_equal c1 (OColumn c2) = Ok tt <->
  col_name c1 = col_name c2 /\
  SQLColumnDataType.__eq__ (col_type c1) (ODataType (col_type c2)) = true /\
  py_eq (col_primary_key_order c1) (col_primary_key_order c2) = true /\
  col_is_nullable c1 = col_is_nullable c2 /\
  py_eq (col_default_value c1) (col_default_value c2) = true /\
  for_izip (fun a b => SQLAttribute.assert_equal a (OAttribute b))
    (col_attributes c1) (col_attributes c2) = Ok tt /\
  dict_eq (col_metadata c1) (col_metadata c2) = true.
Proof.
  unfold SQLColumn.assert_equal.
  rewrite !then_ok, !assert_ok, String.eqb_eq, Bool.eqb_true_iff. tauto.
Qed.

Lemma table_assert_equal_ok (t1 t2 : SQLTable) :
  SQLTable.assert_equal t1 (OTable t2) = Ok tt <->
  tbl_name t1 = tbl_name t2 /\
  for_izip (fun c1 c2 => SQLColumn.assert_equal c1 (OColumn c2))
    (tbl_columns t1) (tbl_columns t2) = Ok tt /\
  dict_eq (tbl_metadata t1) (tbl_metadata t2) = true.
Proof.
  unfold SQLTable.assert_equal.
  rewrite !then_ok, !assert_ok, String.eqb_eq. tauto.
Qed.

Lemma attrs_eq_positional (s1 s2 : list SQLAttribute) :
  Forall2 (fun a b => SQLAttribute.__eq__ a (OAttribute b) = true) s1 s2 ->
  attrs_eq s1 s2 = true.
Proof.
  intros Hall. apply set_eq_spec. split; [by eapply Forall2_length |].
  intros x Hx. apply list_elem_of_In, list_elem_of_lookup in Hx as [i Hi].
  destruct (Forall2_lookup_l _ _ _ _ _ Hall Hi) as (y & Hy & E).
  exists y. split; [| done].
  apply list_elem_of_In, list_elem_of_lookup. eauto.
Qed.

Lemma column_assert_equal_sound (c1 c2 : SQLColumn) :
  length (col_attributes c1) = length (col_attributes c2) ->
  SQLColumn.assert_equal c1 (OColumn c2) = Ok tt ->
  SQLColumn.__eq__ c1 (OColumn c2) = true.
Proof.
  intros Hlen. rewrite column_assert_equal_ok, column_eq_fields.
  intros (En & Et & Ep & Ei & Ed & Ea & Em). split_and!; try done.
  apply attrs_eq_positional.
  apply for_izip_same_length in Ea; [| done].
  eapply Forall2_impl; [exact Ea |].
  intros a b. apply attribute_assert_equal_iff.
Qed.

Lemma for_izip_longer_left {A : Type} (body : A -> A -> result unit)
    (l extra : list A) :
  (forall x, body x x = Ok tt) ->
  for_izip body (l ++ extra) l = Ok tt.
Proof.
  intros Hbody. induction l as [| x l IH]; cbn [for_izip app].
  - by destruct extra.
  - by rewrite Hbody.
Qed.

End AssertEqualFacts.

(** X13: when two columns have as many attributes as one another, a passing
    [assert_equal] means the columns are equal. *)
Theorem column_assert_equal_means_equal (c1 c2 : SQLColumn) :
  length (col_attributes c1) = length (col_attributes c2) ->
  SQLColumn.assert_equal c1 (OColumn c2) = Ok tt ->
  SQLColumn.__eq__ c1 (OColumn c2) = true.
Proof. apply column_assert_equal_sound. Qed.

Lemma column_assert_equal_means_equal_witness :
  SQLColumn.__eq__
    (with_attributes (Samples.column "id" (VInt 1)) [Samples.unsigned])
    (OColumn (with_col_doc
                (with_attributes (Samples.column "id" (VBool true))
                   [Samples.unsigned]) (Some "the key"))) = true.
Proof.
  apply column_assert_equal_means_equal; reflexivity.
Defined.

(** X14: when two tables have as many columns as one another, and columns at
    the same position as many attributes, a passing [assert_equal] means the
    tables are equal. *)
Theorem table_assert_equal_means_equal (t1 t2 : SQLTable) :
  Forall2 (fun c1 c2 =>
             length (col_attributes c1) = length (col_attributes c2))
    (tbl_columns t1) (tbl_columns t2) ->
  SQLTable.assert_equal t1 (OTable t2) = Ok tt ->
  SQLTable.__eq__ t1 (OTable t2) = true.
Proof.
  intros Hshape. rewrite table_assert_equal_ok, table_eq_fields.
  intros (En & Hcols & Em). split_and!; try done.
  apply for_izip_same_length in Hcols; [| by eapply Forall2_length].
  revert Hcols. induction Hshape as [| c1 c2 l1 l2 Hlen _ IH];
    inversion 1; subst; constructor; auto.
  by apply column_assert_equal_sound.
Qed.

Lemma table_assert_equal_means_equal_witness :
  SQLTable.__eq__ (Samples.table Samples.five_columns)
    (OTable (with_tbl_doc (Samples.table Samples.five_columns)
               (Some "businesses"))) = true.
Proof.
  apply table_assert_equal_means_equal.
  - repeat constructor.
  - reflexivity.
Defined.

(** X15: [assert_equal] looks only at the positions both sides have: a table
    passes against the same table with any columns added at the end, and the
    longer table passes against the shorter one; the same holds for a column
    and attributes added at the end of its set's iteration. *)
Theorem assert_equal_ignores_the_tail (t : SQLTable) (c : SQLColumn)
    (more_columns : list SQLColumn) (more_attributes : list SQLAttribute) :
  SQLTable.assert_equal t
    (OTable (with_columns t (tbl_columns t ++ more_columns))) = Ok tt /\
  SQLTable.assert_equal (with_columns t (tbl_columns t ++ more_columns))
    (OTable t) = Ok tt /\
  SQLColumn.assert_equal c
    (OColumn (with_attributes c (col_attributes c ++ more_attributes))) =
    Ok tt /\
  SQLColumn.assert_equal (with_attributes c (col_attributes c ++ more_attributes))
    (OColumn c) = Ok tt.
Proof.
  split_and!.
  - apply table_assert_equal_more_columns.
  - apply table_assert_equal_ok. fields. split_and!; [done | | apply dict_eq_refl].
    apply for_izip_longer_left, column_assert_equal_refl.
  - apply column_assert_equal_more_attributes.
  - apply column_assert_equal_ok. fields.
    split_and!;
      auto using py_eq_refl, dict_eq_refl, attrs_eq_refl, data_type_eq_refl.
    apply for_izip_longer_left. intros a.
    exact (proj2 (attribute_assert_equal_iff a (OAttribute a))
             (attribute_eq_refl a)).
Qed.

(** X16: [assert_equal] pairs the attributes of two columns in the order the
    two sets iterate them.  When two columns hold the same two different
    attributes and their sets iterate them in opposite orders, the columns
    are equal and yet [assert_equal] raises, at one of the asserts of
    [SQLAttribute.assert_equal]. *)
Theorem assert_equal_depends_on_iteration_order (c : SQLColumn)
    (a b : SQLAttribute) :
  SQLAttribute.__eq__ a (OAttribute b) = false ->
  SQLColumn.__eq__ (with_attributes c [a; b])
    (OColumn (with_attributes c [b; a])) = true /\
  exists lineno : nat,
    (lineno = 125 \/ lineno = 126 \/ lineno = 127)%nat /\
    SQLColumn.assert_equal (with_attributes c [a; b])
      (OColumn (with_attributes c [b; a])) = Raise (AssertionError lineno).
Proof.
  intros Hab. split.
  - apply column_eq_fields. fields.
    split_and!;
      auto using py_eq_refl, dict_eq_refl, attrs_eq_refl, data_type_eq_refl.
    apply set_eq_spec. split; [done |].
    intros x [<- | [<- | []]].
    + exists a. split; [right; by left | apply attribute_eq_refl].
    + exists b. split; [by left | apply attribute_eq_refl].
  - assert (exists lineno : nat,
              (lineno = 125 \/ lineno = 126 \/ lineno = 127)%nat /\
              SQLAttribute.assert_equal a (OAttribute b) =
              Raise (AssertionError lineno)) as (lineno & Hline & E).
    { pose proof (attribute_eq_fields a b) as Hf.
      unfold SQLAttribute.assert_equal.
      destruct (String.eqb (attr_name a) (attr_name b)) eqn:En; simpl;
        [| exists 125%nat; auto].
      destruct (py_eq (attr_value a) (attr_value b)) eqn:Ev; simpl;
        [| exists 126%nat; auto].
      destruct (Bool.eqb (attr_has_value a) (attr_has_value b)) eqn:Eh; simpl;
        [| exists 127%nat; auto].
      exfalso. apply String.eqb_eq in En.
      apply (proj1 (Bool.eqb_true_iff _ _)) in Eh.
      rewrite (proj2 Hf) in Hab; [discriminate Hab | auto]. }
    exists lineno. split; [done |].
    unfold SQLColumn.assert_equal. cbn [with_attributes col_name col_type
      col_primary_key_order col_is_nullable col_default_value col_attributes
      col_metadata for_izip].
    rewrite String.eqb_refl, data_type_eq_refl, !py_eq_refl, Bool.eqb_reflx, E.
    reflexivity.
Qed.

(** [unsigned] and [char_set = utf8], iterated one way and the other. *)
Lemma assert_equal_depends_on_iteration_order_witness :
  SQLColumn.__eq__
    (with_attributes (Samples.column "id" (VInt 1))
       [Samples.unsigned; Samples.charset "utf8"])
    (OColumn (with_attributes (Samples.column "id" (VInt 1))
                [Samples.charset "utf8"; Samples.unsigned])) = true.
Proof.
  apply (proj1 (assert_equal_depends_on_iteration_order
                  (Samples.column "id" (VInt 1))
                  Samples.unsigned (Samples.charset "utf8") eq_refl)).
Defined.

(** *** [primary_keys], further *)

Section SortedMoreFacts.

Context {A : Type} (key : A -> PyVal).

Local Abbreviation not_after := (fun x y => py_lt (key y) (key x) = false).

Lemma py_lt_asym (a b : PyVal) : py_lt a b = true -> py_lt b a = false.
Proof.
  destruct a as [| x | x | x], b as [| y | y | y]; simpl;
    try discriminate; auto.
  all: try (rewrite Z.ltb_lt, Z.ltb_ge; lia).
  unfold String.ltb. rewrite (String.compare_antisym y x).
  by destruct (String.compare x y).
Qed.

Lemma insert_by_key_adjacent (x : A) (l : list A) :
  Sorted not_after l -> Sorted not_after (insert_by_key key x l).
Proof.
  induction 1 as [| y l Hl IH Hy]; cbn [insert_by_key].
  { repeat constructor. }
  destruct (py_lt (key y) (key x)) eqn:E.
  - constructor; [done |].
    destruct l as [| z l]; cbn [insert_by_key] in *.
    + constructor. by apply py_lt_asym.
    + destruct (py_lt (key z) (key x)).
      * constructor. by inversion Hy.
      * constructor. by apply py_lt_asym.
  - constructor; [by constructor | by constructor].
Qed.

Lemma sorted_adjacent (l : list A) : Sorted not_after (sorted key l).
Proof.
  induction l as [| x l IH]; cbn [sorted]; [constructor |].
  by apply insert_by_key_adjacent.
Qed.

Lemma sorted_of_sorted (l : list A) :
  Sorted not_after l -> sorted key l = l.
Proof.
  induction 1 as [| x l Hl IH Hx]; cbn [sorted]; [done |].
  rewrite IH. destruct Hx as [| y l Hxy]; cbn [insert_by_key]; [done |].
  by rewrite Hxy.
Qed.

Lemma sorted_idempotent (l : list A) :
  sorted key (sorted key l) = sorted key l.
Proof. apply sorted_of_sorted, sorted_adjacent. Qed.

End SortedMoreFacts.

Section PrimaryKeysMore.

Lemma filter_all {A : Type} (f : A -> bool) (l : list A) :
  (forall x, In x l -> f x = true) -> List.filter f l = l.
Proof.
  induction l as [| x l IH]; intros Hall; cbn [List.filter]; [done |].
  rewrite (Hall x (or_introl eq_refl)), IH; [done |].
  intros y Hy. apply Hall. by right.
Qed.

Lemma filter_perm {A : Type} (f : A -> bool) (l l' : list A) :
  l ≡ₚ l' -> List.filter f l ≡ₚ List.filter f l'.
Proof.
  induction 1 as [| x l l' _ IH | x y l | l l' l'' _ IH1 _ IH2];
    cbn [List.filter].
  - done.
  - destruct (f x); by rewrite IH.
  - destruct (f x), (f y); (done || apply perm_swap).
  - by rewrite IH1.
Qed.

Lemma key_before_asym (c1 c2 : SQLColumn) :
  key_before c1 c2 -> key_before c2 c1 -> c1 = c2.
Proof.
  intros (n & m & E1 & E2 & Hnm) (m' & n' & E2' & E1' & Hmn).
  rewrite E1 in E1'. rewrite E2 in E2'.
  injection E1' as <-. injection E2' as <-. lia.
Qed.

End PrimaryKeysMore.

(** X17: whatever the [primary_key_order] values are (integers, booleans,
    strings, with or without repeats), [primary_keys] holds exactly the
    columns with a true [primary_key_order], no column in it is followed by
    one with a smaller key, and it is never longer than the column list. *)
Theorem primary_keys_always_ordered (t : SQLTable) :
  SQLTable.primary_keys t ≡ₚ
    List.filter (fun col => truthy (col_primary_key_order col))
      (tbl_columns t) /\
  Sorted key_not_after (SQLTable.primary_keys t) /\
  (length (SQLTable.primary_keys t) <= length (tbl_columns t))%nat.
Proof.
  unfold SQLTable.primary_keys. split_and!.
  - apply sorted_perm.
  - apply (sorted_adjacent col_primary_key_order).
  - rewrite sorted_perm. apply List.filter_length_le.
Qed.

(** X18: [primary_keys] keeps the table's order wherever it can: when the
    columns with a true [primary_key_order] already stand in non-decreasing
    order of it, equal values included, they are returned as they stand. *)
Theorem primary_keys_keeps_sorted_columns (t : SQLTable) :
  Sorted key_not_after
    (List.filter (fun col => truthy (col_primary_key_order col))
       (tbl_columns t)) ->
  SQLTable.primary_keys t =
  List.filter (fun col => truthy (col_primary_key_order col)) (tbl_columns t).
Proof. apply (sorted_of_sorted col_primary_key_order). Qed.

(** Positions 1, none, 1, 2: the two columns at position 1 keep their
    order. *)
Lemma primary_keys_keeps_sorted_columns_witness :
  SQLTable.primary_keys
    (Samples.table [Samples.column "id" (VInt 1); Samples.column "url" VNone;
                    Samples.column "name" (VInt 1);
                    Samples.column "city" (VInt 2)]) =
  [Samples.column "id" (VInt 1); Samples.column "name" (VInt 1);
   Samples.column "city" (VInt 2)].
Proof.
  apply (primary_keys_keeps_sorted_columns
           (Samples.table [Samples.column "id" (VInt 1);
                           Samples.column "url" VNone;
                           Samples.column "name" (VInt 1);
                           Samples.column "city" (VInt 2)])).
  repeat constructor.
Defined.

(** X19: the primary key of a table made of the primary-key columns of a
    table is the same list: [primary_keys] applied to its own result changes
    nothing. *)
Theorem primary_keys_idempotent (t : SQLTable) :
  SQLTable.primary_keys (with_columns t (SQLTable.primary_keys t)) =
  SQLTable.primary_keys t.
Proof.
  unfold SQLTable.primary_keys at 1. fields.
  rewrite filter_all.
  - apply (sorted_idempotent col_primary_key_order).
  - intros c Hc. apply list_elem_of_In, primary_keys_truthy in Hc. tauto.
Qed.

(** X20: under the parser's discipline (every [primary_key_order] is [None]
    or a positive integer, and the integers are pairwise different) the
    primary key does not depend on the order of the columns in the table. *)
Theorem primary_keys_ignores_column_order (t : SQLTable)
    (columns' : list SQLColumn) :
  Forall (fun c => key_position (col_primary_key_order c)) (tbl_columns t) ->
  NoDup (map col_primary_key_order (keyed_columns t)) ->
  columns' ≡ₚ tbl_columns t ->
  SQLTable.primary_keys (with_columns t columns') = SQLTable.primary_keys t.
Proof.
  intros Hpos Hnd Hperm.
  assert (Forall (fun c => key_position (col_primary_key_order c))
            (tbl_columns (with_columns t columns'))) as Hpos'.
  { fields. by rewrite Hperm. }
  assert (keyed_columns (with_columns t columns') ≡ₚ keyed_columns t) as Hk.
  { unfold keyed_columns. fields. by apply filter_perm. }
  rewrite (primary_keys_of_positions _ Hpos'), (primary_keys_of_positions _ Hpos).
  apply StronglySorted_unique_strong with key_before.
  - intros c1 c2 _ _. apply key_before_asym.
  - apply sorted_strictly_ascending.
    + by apply keyed_columns_int_key.
    + by rewrite Hk.
  - apply sorted_strictly_ascending; [by apply keyed_columns_int_key | done].
  - by rewrite !sorted_perm.
Qed.

(** The five sample columns, reversed. *)
Lemma primary_keys_ignores_column_order_witness :
  SQLTable.primary_keys (Samples.table (rev Samples.five_columns)) =
  SQLTable.primary_keys (Samples.table Samples.five_columns).
Proof.
  apply (primary_keys_ignores_column_order
           (Samples.table Samples.five_columns) (rev Samples.five_columns)).
  - repeat first [apply Forall_nil_2 | apply Forall_cons_2];
      unfold key_position; simpl;
      first [by left | right; eexists; split; [reflexivity | lia]].
  - apply (bool_decide_unpack _). vm_compute. exact I.
  - symmetry. apply Permutation_rev.
Defined.

(** X21: [primary_keys] is empty exactly when no column has a true
    [primary_key_order]; a table without columns has no primary key. *)
Theorem primary_keys_empty (t : SQLTable) :
  (SQLTable.primary_keys t = [] <->
   forall c, In c (tbl_columns t) -> truthy (col_primary_key_order c) = false) /\
  SQLTable.primary_keys (with_columns t []) = [].
Proof.
  split; [| reflexivity]. split.
  - intros E c Hc. destruct (truthy (col_primary_key_order c)) eqn:Ec; [| done].
    assert (c ∈ SQLTable.primary_keys t) as Hin.
    { apply primary_keys_truthy. split; [by apply list_elem_of_In | done]. }
    rewrite E in Hin. by apply not_elem_of_nil in Hin.
  - intros Hall.
    destruct (SQLTable.primary_keys t) as [| c l] eqn:E; [done |].
    assert (c ∈ SQLTable.primary_keys t) as Hin by (rewrite E; left).
    apply primary_keys_truthy in Hin as [Hc Ht].
    apply list_elem_of_In in Hc. rewrite (Hall c Hc) in Ht. discriminate Ht.
Qed.

(** X22: a table built without columns, with [None] or with an empty list,
    has no column and no primary key, and the two ways of building it give
    equal tables whatever their [doc]. *)
Theorem table_init_without_columns (name : string) (doc1 doc2 : option string)
    (metadata : gmap string PyVal) :
  tbl_columns (SQLTable.__init__ name None doc1 metadata) = [] /\
  SQLTable.primary_keys (SQLTable.__init__ name None doc1 metadata) = [] /\
  SQLTable.__eq__ (SQLTable.__init__ name None doc1 metadata)
    (OTable (SQLTable.__init__ name (Some []) doc2 metadata)) = true.
Proof.
  split_and!; try reflexivity.
  apply table_eq_fields. cbn [SQLTable.__init__ or_empty]. fields.
  split_and!; [done | constructor | apply dict_eq_refl].
Qed.

(** *** Permissions *)

(** X23: equality of permissions is symmetric and transitive, a permission
    is equal to itself exactly when its object name, its user or group name
    and its permission are each equal to themselves, and a permission never
    equals an object of another kind. *)
Theorem permission_eq_symmetric_transitive :
  (forall p : DbPermission,
     DbPermission.__eq__ p (OPermission p) =
     py_eq (object_name p) (object_name p) &&
     py_eq (user_or_group_name p) (user_or_group_name p) &&
     py_eq (permission p) (permission p)) /\
  (forall p q : DbPermission,
     DbPermission.__eq__ p (OPermission q) =
     DbPermission.__eq__ q (OPermission p)) /\
  (forall p q r : DbPermission,
     DbPermission.__eq__ p (OPermission q) = true ->
     DbPermission.__eq__ q (OPermission r) = true ->
     DbPermission.__eq__ p (OPermission r) = true) /\
  (forall (p : DbPermission) (o : PyObj),
     DbPermission.__eq__ p (OOther o) = false).
Proof.
  unfold DbPermission.__eq__. split_and!.
  - intros p. by rewrite Bool.eqb_reflx, andb_true_r.
  - intros p q.
    rewrite (py_eq_sym (object_name p)), (py_eq_sym (user_or_group_name p)),
      (py_eq_sym (permission p)).
    by destruct (for_group p), (for_group q).
  - intros p q r. rewrite !andb_true_iff, !Bool.eqb_true_iff.
    intros (((E1 & E2) & E3) & E4) (((F1 & F2) & F3) & F4).
    split_and!; try (by eapply py_eq_trans). congruence.
  - done.
Qed.

(** A chain through the permission levels [1] and [True]. *)
Lemma permission_eq_symmetric_transitive_witness :
  DbPermission.__eq__
    (DbPermission.__init__ (VStr "biz") (VStr "dev") (VInt 1) false)
    (OPermission
       (DbPermission.__init__ (VStr "biz") (VStr "dev") (VInt 1) false)) = true.
Proof.
  apply (proj1 (proj2 (proj2 permission_eq_symmetric_transitive)) _
           (DbPermission.__init__ (VStr "biz") (VStr "dev") (VBool true) false));
    reflexivity.
Defined.

(** *** [to_dict], further *)

Section ToDictFacts.

Context {Topic TopicDict : Type} (topic_to_dict : Topic -> TopicDict).

Lemma to_dict_lookups (self : Avro.AvroSchema Topic) :
  let d := Avro.to_dict topic_to_dict self in
  d !! "schema_id" = Some (Avro.DPrim (Avro.id self)) /\
  d !! "schema" = Some (Avro.DPrim (Avro.avro_schema self)) /\
  d !! "status" = Some (Avro.DPrim (Avro.status self)) /\
  d !! "topic" = Some (match Avro.topic self with
                       | None => Avro.DPrim VNone
                       | Some t => Avro.DTopic (topic_to_dict t)
                       end) /\
  d !! "created_at" = Some (Avro.DPrim (Avro.created_at self)) /\
  d !! "updated_at" = Some (Avro.DPrim (Avro.updated_at self)) /\
  d !! "base_schema_id" =
    (if is_not_None (Avro.base_schema_id self)
     then Some (Avro.DPrim (Avro.base_schema_id self)) else None).
Proof.
  unfold Avro.to_dict.
  destruct (is_not_None (Avro.base_schema_id self)); cbv zeta;
    split_and!; by simplify_map_eq.
Qed.

Lemma to_dict_size (self : Avro.AvroSchema Topic) :
  size (Avro.to_dict topic_to_dict self) =
  if is_not_None (Avro.base_schema_id self) then 7%nat else 6%nat.
Proof.
  unfold Avro.to_dict.
  destruct (is_not_None (Avro.base_schema_id self)); cbv zeta;
    rewrite !map_size_insert_None by (by simplify_map_eq);
    by rewrite map_size_empty.
Qed.

End ToDictFacts.

(** X24: the dictionary never holds [None] under [base_schema_id]: when the
    key is there its value is the record's [base_schema_id], which is not
    [None]; the dictionary has seven entries then, and six otherwise. *)
Theorem to_dict_base_schema_id {Topic TopicDict : Type}
    (topic_to_dict : Topic -> TopicDict) (self : Avro.AvroSchema Topic) :
  let d := Avro.to_dict topic_to_dict self in
  d !! "base_schema_id" <> Some (Avro.DPrim VNone) /\
  (forall v, d !! "base_schema_id" = Some v ->
     v = Avro.DPrim (Avro.base_schema_id self) /\
     Avro.base_schema_id self <> VNone) /\
  size d = (if is_not_None (Avro.base_schema_id self) then 7 else 6)%nat.
Proof.
  cbv zeta.
  destruct (to_dict_lookups topic_to_dict self)
    as (_ & _ & _ & _ & _ & _ & Hbase).
  rewrite Hbase, to_dict_size.
  destruct (Avro.base_schema_id self) eqn:E; cbn [is_not_None];
    split_and!; try done; intros v [= <-]; done.
Qed.

(** X25: the dictionary keeps everything of a record but [topic_id]: two
    records give the same dictionary exactly when they agree on [id],
    [avro_schema], [status], [created_at], [updated_at], [base_schema_id]
    and on what their topics serialize to. *)
Theorem to_dict_determines_record {Topic TopicDict : Type}
    (topic_to_dict : Topic -> TopicDict) (s1 s2 : Avro.AvroSchema Topic) :
  Avro.to_dict topic_to_dict s1 = Avro.to_dict topic_to_dict s2 <->
  Avro.id s1 = Avro.id s2 /\
  Avro.avro_schema s1 = Avro.avro_schema s2 /\
  Avro.status s1 = Avro.status s2 /\
  Avro.created_at s1 = Avro.created_at s2 /\
  Avro.updated_at s1 = Avro.updated_at s2 /\
  Avro.base_schema_id s1 = Avro.base_schema_id s2 /\
  topic_to_dict <$> Avro.topic s1 = topic_to_dict <$> Avro.topic s2.
Proof.
  split.
  - intros E.
    destruct (to_dict_lookups topic_to_dict s1)
      as (H1 & H2 & H3 & H4 & H5 & H6 & H7).
    destruct (to_dict_lookups topic_to_dict s2)
      as (G1 & G2 & G3 & G4 & G5 & G6 & G7).
    rewrite E in H1, H2, H3, H4, H5, H6, H7.
    rewrite G1 in H1. rewrite G2 in H2. rewrite G3 in H3. rewrite G4 in H4.
    rewrite G5 in H5. rewrite G6 in H6. rewrite G7 in H7.
    split_and!; try congruence.
    + destruct (Avro.base_schema_id s1), (Avro.base_schema_id s2);
        cbn [is_not_None] in H7; congruence.
    + destruct (Avro.topic s1), (Avro.topic s2); simpl; congruence.
  - intros (E1 & E2 & E3 & E4 & E5 & E6 & E7).
    unfold Avro.to_dict. rewrite E1, E2, E3, E4, E5, E6.
    destruct (Avro.topic s1), (Avro.topic s2); simpl in E7;
      try discriminate E7; try done.
    by injection E7 as ->.
Qed.
